(** * gpsd PPS watcher thread (ppsthread.c): a shallow embedding

    The development follows ppsthread.c top to bottom:
    - [timespec], [TS_NORM], [TS_SUB]: the timespec arithmetic;
    - [init_kernel_pps]: the RFC2783 (KPPS) setup, over an explicit
      description of what the operating system answers;
    - [iteration]: one pass of the body of the [while] loop of
      [gpsd_ppsmonitor], over the values the system calls deliver;
    - [act], [run]: the worker interleaved with the entry points
      [pps_thread_stash_fixtime] and [pps_thread_deactivate].

    Conventions.  C integers are modelled by [Z].  Signed overflow is
    undefined in C, so [time_t] and [long] arithmetic is the arithmetic of
    [Z]; [TS_NORM_fits] shows that normalisation stays inside the machine
    ranges.  The one narrowing conversion of the file, from [long long] to
    [int] for [cycle] and [duration], is written out as [to_int].  Calls
    through the hooks and to the operating system appear as [event]s, in
    program order.

    The embedding is that of the build with [PPS_ENABLE],
    [HAVE_SYS_TIMEPPS_H] and [TIOCMIWAIT]; a thread without kernel PPS is
    one whose [kernelpps_handle] is -1.  The hooks are taken not to write
    to the context they are handed.  Locking and unlocking the mutex is
    taken to succeed; a failure would add a line to the log and nothing
    else.  Values that are computed for the log alone ([offset],
    [duration_kpps], the formatted timestamps) are left out. *)

From Stdlib Require Import ZArith List String Ascii Bool Lia.
From Stdlib Require Import Sorting.Sorted.
Import ListNotations.
Open Scope string_scope.
Open Scope Z_scope.
Open Scope list_scope.

(** ** Timespec arithmetic *)

Record timespec : Type := mk_timespec { tv_sec : Z; tv_nsec : Z }.

Record timedelta_t : Type := mk_timedelta { real : timespec; clock : timespec }.

(** [TS_NORM], lines 97-123.  The first test selects the branch "result is
    positive", the second one the borrow or the carry. *)
Definition TS_NORM (ts : timespec) : timespec :=
  if (1 <=? tv_sec ts) || ((0 =? tv_sec ts) && (0 <=? tv_nsec ts)) then
    if 1000000000 <=? tv_nsec ts then
      {| tv_sec := tv_sec ts + 1; tv_nsec := tv_nsec ts - 1000000000 |}
    else if 0 >? tv_nsec ts then
      {| tv_sec := tv_sec ts - 1; tv_nsec := tv_nsec ts + 1000000000 |}
    else ts
  else
    if -1000000000 >=? tv_nsec ts then
      {| tv_sec := tv_sec ts - 1; tv_nsec := tv_nsec ts + 1000000000 |}
    else if 0 <? tv_nsec ts then
      {| tv_sec := tv_sec ts + 1; tv_nsec := tv_nsec ts - 1000000000 |}
    else ts.

(** [TS_SUB], lines 127-132: field-wise difference, then [TS_NORM]. *)
Definition TS_SUB (ts1 ts2 : timespec) : timespec :=
  TS_NORM {| tv_sec := tv_sec ts1 - tv_sec ts2;
             tv_nsec := tv_nsec ts1 - tv_nsec ts2 |}.

(** Modelled from the spec: the macro [timespec_diff_ns] of timespec.h,
    a header that ppsthread.c includes and that is not among the sources.
    The spec gives it as [(a.sec - b.sec) * 10^9 + (a.nsec - b.nsec)], a
    [long long]. *)
Definition timespec_diff_ns (x y : timespec) : Z :=
  (tv_sec x - tv_sec y) * 1000000000 + (tv_nsec x - tv_nsec y).

(** Conversion of a [long long] to the 32-bit [int] that holds [cycle]
    and [duration]: reduction modulo 2^32 into [-2^31, 2^31). *)
Definition to_int (z : Z) : Z := (z + 2147483648) mod 4294967296 - 2147483648.

(** Microseconds between two instants as the monitor computes them:
    [timespec_diff_ns(x, y) / 1000] stored in an [int].  C division
    truncates toward zero, hence [Z.quot]. *)
Definition diff_us (x y : timespec) : Z :=
  to_int (Z.quot (timespec_diff_ns x y) 1000).

(** The sign rules a normalised timespec obeys (comment above [TS_NORM]). *)
Definition sign_rules (ts : timespec) : Prop :=
  (tv_sec ts > 0 -> 0 <= tv_nsec ts < 1000000000) /\
  (tv_sec ts < 0 -> -1000000000 < tv_nsec ts <= 0).

(** A timespec that is fully normal: the sign rules, and less than one
    second of nanoseconds when the seconds are zero. *)
Definition normalized (ts : timespec) : Prop :=
  sign_rules ts /\ -1000000000 < tv_nsec ts < 1000000000.

(** Inputs for which a single borrow or carry is enough, the case
    [TS_NORM] is written for. *)
Definition one_carry (ts : timespec) : Prop :=
  ~ (tv_sec ts >= 2 /\ tv_nsec ts < -1000000000) /\
  ~ (tv_sec ts <= -2 /\ tv_nsec ts > 1000000000).

(** Machine ranges: [time_t] is 64 bits wide, [tv_nsec] at least 32. *)
Definition fits (ts : timespec) : Prop :=
  -9223372036854775808 <= tv_sec ts <= 9223372036854775807 /\
  -2147483648 <= tv_nsec ts <= 2147483647.

(** ** The thread context and what the thread does to the outside *)

Inductive log_level : Type :=
  THREAD_ERROR | THREAD_WARN | THREAD_INF | THREAD_PROG | THREAD_RAW.

(** The string argument of a message that has none. *)
Definition no_arg : string := EmptyString.

(** Every call through a hook, every system call with an effect and every
    write to the published pair is recorded, in program order.  A [Log]
    carries the format of the message and its string argument, if any. *)
Inductive event : Type :=
| Log (level : log_level) (fmt : string) (arg : string)
| Report (td : timedelta_t)
| Pps (td : timedelta_t)
| Wrap
| Stored (td : timedelta_t)
| Sleep (seconds : Z)
| SetLdisc (fd : Z)
| OpenRdwr (path : string)
| PpsCreate (fd : Z)
| PpsSetparams (handle : Z)
| PpsDestroy (handle : Z).

(** [struct pps_thread_t], as far as ppsthread.c reads and writes it.
    [log_hook] is called without a test, so it is always there; of the
    other hooks the model keeps whether they are [NULL], and for
    [report_hook] the tag it returns. *)
Record pps_thread_t : Type := mk_pps_thread {
  devicefd : Z;
  devicename : string;
  kernelpps_handle : Z;
  fixin_real : timespec;
  fixin_clock : timespec;
  ppsout_last : timedelta_t;
  ppsout_count : Z;
  report_hook : option (timedelta_t -> string);
  pps_hook : bool;
  wrap_hook : bool
}.

Definition set_kernelpps_handle (pt : pps_thread_t) (h : Z) : pps_thread_t :=
  mk_pps_thread (devicefd pt) (devicename pt) h (fixin_real pt)
    (fixin_clock pt) (ppsout_last pt) (ppsout_count pt) (report_hook pt)
    (pps_hook pt) (wrap_hook pt).

Definition set_fixin (pt : pps_thread_t) (r c : timespec) : pps_thread_t :=
  mk_pps_thread (devicefd pt) (devicename pt) (kernelpps_handle pt) r c
    (ppsout_last pt) (ppsout_count pt) (report_hook pt) (pps_hook pt)
    (wrap_hook pt).

Definition set_ppsout (pt : pps_thread_t) (td : timedelta_t) (n : Z)
  : pps_thread_t :=
  mk_pps_thread (devicefd pt) (devicename pt) (kernelpps_handle pt)
    (fixin_real pt) (fixin_clock pt) td n (report_hook pt) (pps_hook pt)
    (wrap_hook pt).

Definition clear_hooks (pt : pps_thread_t) : pps_thread_t :=
  mk_pps_thread (devicefd pt) (devicename pt) (kernelpps_handle pt)
    (fixin_real pt) (fixin_clock pt) (ppsout_last pt) (ppsout_count pt)
    None false (wrap_hook pt).

(** ** Kernel PPS setup: [init_kernel_pps], lines 139-308 *)

(** What the operating system answers during setup.  [linux] is the
    compile-time choice [#ifdef __linux__].  [os_glob] lists the matches of
    /sys/devices/virtual/pps/pps?/path, each with the bytes [read] returns
    for it (none when [open] or [read] fails). *)
Record kpps_os : Type := mk_kpps_os {
  linux : bool;
  os_isatty : bool;
  os_setd : bool;
  os_glob : list (string * string);
  os_uid : Z;
  os_open : string -> Z;
  os_create : Z -> option Z;
  os_getcap : bool;
  os_setparams : bool
}.

(** [path[r - 1] = 0] after [read]: the trailing newline is cut off. *)
Definition drop_last (bytes : string) : string :=
  String.substring 0 (Nat.pred (String.length bytes)) bytes.

(** [gl_pathv[i][28]], the digit of ppsN in the sysfs path. *)
Definition char28 (pathv : string) : ascii :=
  match String.get 28 pathv with
  | Some c => c
  | None => Ascii.zero
  end.

(** The [for] loop of lines 206-225: [pps_num] and the log lines. *)
Fixpoint find_pps (name : string) (g : list (string * string))
  : ascii * list event :=
  match g with
  | [] => (Ascii.zero, [])
  | (pathv, bytes) :: rest =>
      let path := drop_last bytes in
      let ev := Log THREAD_INF "KPPS checking %s, %s" pathv in
      if String.eqb path name then (char28 pathv, [ev])
      else let '(c, evs) := find_pps name rest in (c, ev :: evs)
  end.

(** Lines 171-236: the path of the PPS device on Linux, or [None] where
    the function returns -1. *)
Definition linux_pps_path (os : kpps_os) (pt : pps_thread_t)
  : list event * option string :=
  if String.prefix "/dev/pps" (devicename pt) then ([], Some (devicename pt))
  else if negb (os_setd os) then
    ([SetLdisc (devicefd pt);
      Log THREAD_INF "KPPS cannot set PPS line discipline on %s : %s"
          (devicename pt)], None)
  else
    let '(pps_num, evs) := find_pps (devicename pt) (os_glob os) in
    if Ascii.eqb pps_num Ascii.zero then
      (SetLdisc (devicefd pt) :: evs
         ++ [Log THREAD_INF "KPPS device not found." no_arg], None)
    else
      (SetLdisc (devicefd pt) :: evs,
       Some ("/dev/pps" ++ String pps_num EmptyString)%string).

(** Lines 165-259: the descriptor [ret] for the RFC2783 calls, or [None]
    where the function returns -1. *)
Definition kpps_descriptor (os : kpps_os) (pt : pps_thread_t)
  : list event * option Z :=
  if linux os then
    match linux_pps_path os pt with
    | (evs, None) => (evs, None)
    | (evs, Some path) =>
        if negb (0 =? os_uid os) then
          (evs ++ [Log THREAD_INF "KPPS only works as root" no_arg], None)
        else
          let ret := os_open os path in
          if 0 >? ret then
            (evs ++ [OpenRdwr path;
                     Log THREAD_INF "KPPS cannot open %s: %s" path], None)
          else (evs ++ [OpenRdwr path], Some ret)
    end
  else ([], Some (devicefd pt)).

(** The whole function: the value returned, the context it leaves, and
    what it did. *)
Definition init_kernel_pps (os : kpps_os) (pt : pps_thread_t)
  : Z * pps_thread_t * list event :=
  let pt := set_kernelpps_handle pt (-1) in
  if negb (os_isatty os) then
    (-1, pt, [Log THREAD_INF "KPPS gps_fd not a tty" no_arg])
  else
    match kpps_descriptor os pt with
    | (evs, None) => (-1, pt, evs)
    | (evs, Some ret) =>
        let evs := evs ++ [Log THREAD_INF "KPPS RFC2783 fd is %d" no_arg;
                           PpsCreate ret] in
        match os_create os ret with
        | None =>
            (-1, pt,
             evs ++ [Log THREAD_INF "KPPS time_pps_create(%d) failed: %s" no_arg])
        | Some h =>
            let pt := set_kernelpps_handle pt h in
            let evs :=
              evs ++ [if os_getcap os
                      then Log THREAD_INF "KPPS caps %0x" no_arg
                      else Log THREAD_ERROR "KPPS time_pps_getcap() failed" no_arg]
                  ++ [PpsSetparams h] in
            if negb (os_setparams os) then
              (-1, pt,
               evs ++ [Log THREAD_ERROR
                         "KPPS time_pps_setparams() failed: %s" no_arg;
                       PpsDestroy h])
            else (0, pt, evs)
        end
    end.

(** ** The monitor: [gpsd_ppsmonitor], lines 313-800 *)

(** [pps_info_t] as the monitor reads it (the sequence numbers are only
    logged). *)
Record pps_info_t : Type := mk_pps_info {
  assert_timestamp : timespec;
  clear_timestamp : timespec
}.

(** What the system calls of one pass deliver: whether
    [ioctl(TIOCMIWAIT)] succeeded, the result of [clock_gettime] and of
    [ioctl(TIOCMGET)] ([None] on failure), and of [time_pps_fetch]. *)
Record wakeup : Type := mk_wakeup {
  miwait_ok : bool;
  now : option timespec;
  mget : option Z;
  fetch : option pps_info_t
}.

(** The locals of [gpsd_ppsmonitor] that live from one pass to the next.
    The others ([clock_ts], [state], [edge], [cycle], [duration], [pi],
    [edge_kpps], [ts_kpps], the copies of the fix) are written in each
    pass before they are read. *)
Record locals : Type := mk_locals {
  last_second_used : Z;
  unchanged : Z;
  state_last : Z;
  pulse : timespec * timespec;
  pulse_kpps : timespec * timespec
}.

Definition zero_ts : timespec := {| tv_sec := 0; tv_nsec := 0 |}.

(** Lines 319-339: the initial values. *)
Definition init_locals : locals :=
  {| last_second_used := 0; unchanged := 0; state_last := 0;
     pulse := (zero_ts, zero_ts); pulse_kpps := (zero_ts, zero_ts) |}.

(** [pulse[edge]] and [pulse[edge] = ts] for an array of two. *)
Definition at_edge (p : timespec * timespec) (edge : Z) : timespec :=
  if edge =? 0 then fst p else snd p.

Definition set_edge (p : timespec * timespec) (edge : Z) (ts : timespec)
  : timespec * timespec :=
  if edge =? 0 then (ts, snd p) else (fst p, ts).

(** [(int)(edge == 0)], the index of the opposite edge. *)
Definition other_edge (edge : Z) : Z := if edge =? 0 then 1 else 0.

(** Lines 489-501: the later of the two kernel timestamps. *)
Definition newer_edge (pi : pps_info_t) : Z * timespec :=
  if tv_sec (assert_timestamp pi) >? tv_sec (clear_timestamp pi) then
    (1, assert_timestamp pi)
  else if tv_sec (assert_timestamp pi) <? tv_sec (clear_timestamp pi) then
    (0, clear_timestamp pi)
  else if tv_nsec (assert_timestamp pi) >? tv_nsec (clear_timestamp pi) then
    (1, assert_timestamp pi)
  else (0, clear_timestamp pi).

(** Lines 456-535.  The second component is [Some (edge_kpps, pi)] when
    [ok_kpps] is set, which is the only case where the two are read
    later. *)
Definition kpps_check (handle : Z) (l : locals) (w : wakeup)
  : (timespec * timespec) * option (Z * pps_info_t) * list event :=
  if 0 <=? handle then
    match fetch w with
    | None =>
        (pulse_kpps l, None, [Log THREAD_ERROR "KPPS kernel PPS failed" no_arg])
    | Some pi =>
        let '(edge_kpps, ts_kpps) := newer_edge pi in
        let cycle_kpps := diff_us ts_kpps (at_edge (pulse_kpps l) edge_kpps) in
        let evs :=
          [Log THREAD_PROG
             "KPPS assert %s, sequence: %ld - clear  %s, sequence: %ld" no_arg;
           Log THREAD_PROG "KPPS data: using %s"
             (if edge_kpps =? 0 then "clear" else "assert");
           Log THREAD_PROG "KPPS cycle: %7d uSec, duration: %7d uSec @ %s" no_arg]
        in
        (set_edge (pulse_kpps l) edge_kpps ts_kpps,
         if (990000 <? cycle_kpps) && (1010000 >? cycle_kpps)
         then Some (edge_kpps, pi) else None,
         evs)
    end
  else (pulse_kpps l, None, []).

(** Lines 543-563: the new [duration] and [unchanged]. *)
Definition stuck_state (name : string)
  (state state_last' cycle duration unchanged' : Z) : Z * Z * list event :=
  if state =? state_last' then
    if (999000 <? cycle) && (1001000 >? cycle) then
      (0, 0, [Log THREAD_RAW "PPS pps-detect on %s invisible pulse" name])
    else if unchanged' + 1 =? 10 then
      (duration, 1,
       [Log THREAD_WARN
          "PPS TIOCMIWAIT returns unchanged state, ppsmonitor sleeps 10" no_arg;
        Sleep 10])
    else (duration, unchanged' + 1, [])
  else
    (duration, 0, [Log THREAD_RAW "PPS pps-detect on %s changed to %d" name]).

(** Lines 601-658: [ok] and [log]. *)
Definition classify (cycle duration edge : Z) : bool * string :=
  if 0 >? cycle then (false, "Rejecting negative cycle")
  else if 199000 >? cycle then (false, "Too short for 5Hz")
  else if 201000 >? cycle then
    if 100000 >? duration then (true, "5Hz PPS pulse")
    else (false, "Unknown error")
  else if 900000 >? cycle then (false, "Too long for 5Hz, too short for 1Hz")
  else if 1100000 >? cycle then
    if 0 =? duration then (true, "invisible pulse")
    else if 499000 >? duration then (false, "1Hz trailing edge")
    else if 501000 >? duration then
      if edge =? 1 then (true, "square") else (false, "Unknown error")
    else (true, "1Hz leading edge")
  else if 1999000 >? cycle then (false, "Too long for 1Hz, too short for 2Hz")
  else if 2001000 >? cycle then
    if 999000 >? duration then (false, "0.5 Hz square too short duration")
    else if 1001000 >? duration then (true, "0.5 Hz square wave")
    else (false, "0.5 Hz square too long duration")
  else (false, "Too long for 0.5Hz").

(** Lines 660-664. *)
Definition dedup (v : bool * string) (last_second_used' : Z)
  (last_fixtime_real : timespec) : bool * string :=
  if fst v && (last_second_used' >=? tv_sec last_fixtime_real)
  then (false, "this second already handled") else v.

(** Lines 722-734: [log1] of a fix that is refused, [None] when the
    hooks are to be called. *)
Definition delay_verdict (delay : timespec) : option string :=
  if (0 >? tv_sec delay) || (0 >? tv_nsec delay) then
    Some "system clock went backwards"
  else if (2 <? tv_sec delay)
          || ((1 =? tv_sec delay) && (100000000 >? tv_nsec delay)) then
    Some "timestamp out of range"
  else None.

(** Lines 682-692: the clock instant that goes out, the kernel's when
    [ok_kpps] holds and there is a handle. *)
Definition chosen_clock (handle : Z) (kpps : option (Z * pps_info_t))
  (clock_ts : timespec) : timespec * list event :=
  match kpps with
  | Some (edge_kpps, pi) =>
      if 0 <=? handle then
        (if edge_kpps =? 0 then clear_timestamp pi else assert_timestamp pi,
         [Log THREAD_RAW "KPPS using edge %d" no_arg])
      else (clock_ts, [])
  | None => (clock_ts, [])
  end.

(** Lines 666-783: the branch taken when [ok] holds. *)
Definition accepted (pt : pps_thread_t) (l : locals)
  (last_fixtime_real last_fixtime_clock clock_ts : timespec) (log : string)
  (kpps : option (Z * pps_info_t)) : locals * pps_thread_t * list event :=
  let '(clock_ts, ev_kpps) := chosen_clock (kernelpps_handle pt) kpps clock_ts in
  let ppstimes :=
    {| real := {| tv_sec := tv_sec last_fixtime_real + 1; tv_nsec := 0 |};
       clock := clock_ts |} in
  let delay := TS_SUB (clock ppstimes) last_fixtime_clock in
  let head := Log THREAD_RAW "PPS edge accepted %.100s" log :: ev_kpps in
  match delay_verdict delay with
  | Some log1 =>
      (l, pt,
       head ++ [Log THREAD_RAW
                  (if (0 >? tv_sec delay) || (0 >? tv_nsec delay)
                   then "PPS: system clock went backwards: %.20s"
                   else "PPS: no current GPS seconds: %.20s") no_arg;
                Log THREAD_PROG "PPS edge %.20s @ %s offset %.20s" log1])
  | None =>
      let l' := mk_locals (tv_sec last_fixtime_real) (unchanged l)
                  (state_last l) (pulse l) (pulse_kpps l) in
      let log1 := match report_hook pt with
                  | Some hook => hook ppstimes
                  | None => "no report hook"
                  end in
      (l', set_ppsout pt ppstimes (ppsout_count pt + 1),
       head
         ++ (match report_hook pt with
             | Some _ => [Report ppstimes]
             | None => []
             end)
         ++ (if pps_hook pt then [Pps ppstimes] else [])
         ++ [Stored ppstimes;
             Log THREAD_INF "PPS hooks called with %.20s clock: %s real: %s"
               log1;
             Log THREAD_PROG "PPS edge %.20s @ %s offset %.20s" log1])
  end.

(** How a pass of the loop body ends: [Next] falls through or takes
    [continue], [Break] leaves the loop. *)
Inductive flow : Type := Next | Break.

(** What a pass leaves behind: how it ends, the locals, the context and
    what it did. *)
Record pass : Type := mk_pass {
  flow_of : flow;
  locals_of : locals;
  thread_of : pps_thread_t;
  events_of : list event
}.

Section Monitor.

(** [TIOCM_CD|TIOCM_CAR|TIOCM_RI|TIOCM_CTS], whose bits come from the
    system headers. *)
Variable PPS_LINE_TIOC : Z.

(** Lines 372-786: one pass of the body of the [while] loop. *)
Definition iteration (pt : pps_thread_t) (l : locals) (w : wakeup)
  : pass :=
  if negb (miwait_ok w) then
    mk_pass Break l pt
      [Log THREAD_WARN "PPS ioctl(TIOCMIWAIT) on %s failed: %d %.40s"
         (devicename pt)]
  else
    let last_fixtime_real := fixin_real pt in
    let last_fixtime_clock := fixin_clock pt in
    match now w with
    | None =>
        mk_pass Break l pt [Log THREAD_ERROR "PPS clock_gettime() failed" no_arg]
    | Some clock_ts =>
        match mget w with
        | None =>
            mk_pass Break l pt
              [Log THREAD_ERROR "PPS ioctl(TIOCMGET) on %s failed"
                 (devicename pt)]
        | Some state =>
            let ev0 := Log THREAD_PROG "PPS ioctl(TIOCMIWAIT) on %s succeeded"
                         (devicename pt) in
            if tv_sec last_fixtime_real =? 0 then mk_pass Next l pt [ev0]
            else
              let state := Z.land state PPS_LINE_TIOC in
              let edge := if state >? state_last l then 1 else 0 in
              let '(pulse_kpps', kpps, ev_kpps) :=
                kpps_check (kernelpps_handle pt) l w in
              let cycle := diff_us clock_ts (at_edge (pulse l) edge) in
              let duration :=
                diff_us clock_ts (at_edge (pulse l) (other_edge edge)) in
              let '(duration, unchanged', ev_stuck) :=
                stuck_state (devicename pt) state (state_last l) cycle
                  duration (unchanged l) in
              let l1 := mk_locals (last_second_used l) unchanged' state
                          (set_edge (pulse l) edge clock_ts) pulse_kpps' in
              let ev1 :=
                ev0 :: ev_kpps ++ ev_stuck
                  ++ [Log THREAD_PROG
                        "PPS edge: %d, cycle: %7d uSec, duration: %7d uSec @ %s"
                        no_arg] in
              if negb (unchanged' =? 0) then mk_pass Next l1 pt ev1
              else
                let '(ok, log) :=
                  dedup (classify cycle duration edge) (last_second_used l1)
                    last_fixtime_real in
                if ok then
                  let '(l2, pt2, ev2) :=
                    accepted pt l1 last_fixtime_real last_fixtime_clock
                      clock_ts log kpps in
                  mk_pass Next l2 pt2 (ev1 ++ ev2)
                else
                  mk_pass Next l1 pt
                    (ev1 ++ [Log THREAD_RAW "PPS edge rejected %.100s" log])
        end
    end.

(** Lines 788-798: what the thread does once the loop is left. *)
Definition teardown (pt : pps_thread_t) : list event :=
  (if kernelpps_handle pt >? 0
   then [Log THREAD_PROG "PPS descriptor cleaned up" no_arg;
         PpsDestroy (kernelpps_handle pt)]
   else [])
    ++ (if wrap_hook pt then [Wrap] else [])
    ++ [Log THREAD_PROG "PPS gpsd_ppsmonitor exited." no_arg].

(** Line 361: the condition of the [while]. *)
Definition loop_guard (pt : pps_thread_t) : bool :=
  match report_hook pt with
  | Some _ => true
  | None => pps_hook pt
  end.

(** ** Entry points, lines 807-892 *)

Definition pps_thread_deactivate (pt : pps_thread_t) : pps_thread_t :=
  clear_hooks pt.

Definition pps_thread_stash_fixtime (pt : pps_thread_t)
  (realtime clocktime : timespec) : pps_thread_t :=
  set_fixin pt realtime clocktime.

Definition pps_thread_lastpps (pt : pps_thread_t) : timedelta_t * Z :=
  (ppsout_last pt, ppsout_count pt).

(** ** The worker among the other threads

    The worker is either about to test the condition of the loop, blocked
    in [ioctl(TIOCMIWAIT)], or gone.  The reader and the daemon act on the
    shared context in between; a pass of the body is taken as one step,
    which is exact for the fix (copied once, under the mutex) and for the
    published pair (written once, under the mutex). *)
Inductive pc : Type := AtGuard | Waiting | Returned.

Record worker : Type := mk_worker {
  ctx : pps_thread_t;
  loc : locals;
  at_pc : pc
}.

Inductive action : Type :=
| Stash (realtime clocktime : timespec)
| Deactivate
| Guard
| Wakeup (w : wakeup).

(** The thread as [pthread_create] starts it. *)
Definition gpsd_ppsmonitor (pt : pps_thread_t) : worker :=
  {| ctx := pt; loc := init_locals; at_pc := AtGuard |}.

(** The end of a pass: back to the test of the loop, or out of the loop
    and through the lines after it. *)
Definition after_pass (p : pass) : worker * list event :=
  match flow_of p with
  | Next => (mk_worker (thread_of p) (locals_of p) AtGuard, events_of p)
  | Break =>
      (mk_worker (thread_of p) (locals_of p) Returned,
       events_of p ++ teardown (thread_of p))
  end.

Definition act (m : worker) (a : action) : worker * list event :=
  match a with
  | Stash r c =>
      (mk_worker (pps_thread_stash_fixtime (ctx m) r c) (loc m) (at_pc m), [])
  | Deactivate =>
      (mk_worker (pps_thread_deactivate (ctx m)) (loc m) (at_pc m), [])
  | Guard =>
      match at_pc m with
      | AtGuard =>
          if loop_guard (ctx m) then (mk_worker (ctx m) (loc m) Waiting, [])
          else (mk_worker (ctx m) (loc m) Returned, teardown (ctx m))
      | _ => (m, [])
      end
  | Wakeup w =>
      match at_pc m with
      | Waiting => after_pass (iteration (ctx m) (loc m) w)
      | _ => (m, [])
      end
  end.

Fixpoint run (m : worker) (acts : list action) : worker * list event :=
  match acts with
  | [] => (m, [])
  | a :: rest =>
      let '(m1, ev1) := act m a in
      let '(m2, ev2) := run m1 rest in
      (m2, ev1 ++ ev2)
  end.

End Monitor.

(** Lines 807-825: [pps_thread_activate].  [launched] tells whether
    [pthread_create] succeeded; the worker exists only then. *)
Definition pps_thread_activate (os : kpps_os) (launched : bool)
  (pt : pps_thread_t) : pps_thread_t * option worker * list event :=
  let '(_, pt, evs) := init_kernel_pps os pt in
  (pt,
   if launched then Some (gpsd_ppsmonitor pt) else None,
   evs
     ++ (if 0 <=? kernelpps_handle pt
         then [Log THREAD_WARN "KPPS kernel PPS will be used" no_arg] else [])
     ++ [Log THREAD_PROG "PPS thread %s"
           (if launched then "launched" else "FAILED")]).

(** ** Vocabulary of the statements *)

(** The published pairs among the events of a run, oldest first. *)
Fixpoint publications (evs : list event) : list timedelta_t :=
  match evs with
  | [] => []
  | Stored td :: rest => td :: publications rest
  | _ :: rest => publications rest
  end.

Definition is_log (e : event) : Prop := exists lvl fmt arg, e = Log lvl fmt arg.

(** Whether an event is a call of one of the four hooks. *)
Definition is_hook_call (e : event) : bool :=
  match e with
  | Log _ _ _ | Report _ | Pps _ | Wrap => true
  | _ => false
  end.

(** What a pass hands to the time consumers: the calls of the report and
    publish hooks and the write of the published pair. *)
Definition is_output (e : event) : bool :=
  match e with
  | Report _ | Pps _ | Stored _ => true
  | _ => false
  end.

Definition outputs (evs : list event) : list event := filter is_output evs.

(** What a pass that publishes [td] hands out, in order. *)
Definition publication_of (pt : pps_thread_t) (td : timedelta_t) : list event :=
  (match report_hook pt with
   | Some _ => [Report td]
   | None => []
   end)
    ++ (if pps_hook pt then [Pps td] else [])
    ++ [Stored td].

(** The true time the monitor gives to an edge that follows the fix
    [last_fixtime_real]. *)
Definition top_of_second (last_fixtime_real : timespec) : timespec :=
  {| tv_sec := tv_sec last_fixtime_real + 1; tv_nsec := 0 |}.

(** The system calls of a pass all succeed. *)
Definition edge_seen (w : wakeup) (clock_ts : timespec) (state : Z) : Prop :=
  miwait_ok w = true /\ now w = Some clock_ts /\ mget w = Some state.

(** Order of two published pairs by their UTC second. *)
Definition earlier_second (a b : timedelta_t) : Prop :=
  tv_sec (real a) < tv_sec (real b).

(** How many of the pairs carry the UTC second [s]. *)
Definition published_in_second (s : Z) (tds : list timedelta_t) : nat :=
  List.length (filter (fun td => tv_sec (real td) =? s) tds).

(** ** Scenarios *)

(** The monitored lines on Linux: CAR (= CD) 0x40, RNG (= RI) 0x80,
    CTS 0x20. *)
Definition linux_lines : Z := 224.

(** A context as the daemon sets it up: no fix yet, nothing published,
    all hooks in place. *)
Definition fresh_thread (name : string) : pps_thread_t :=
  {| devicefd := 5; devicename := name; kernelpps_handle := -1;
     fixin_real := zero_ts; fixin_clock := zero_ts;
     ppsout_last := {| real := zero_ts; clock := zero_ts |};
     ppsout_count := 0;
     report_hook := Some (fun _ => "reported");
     pps_hook := true; wrap_hook := true |}.

(** An edge seen by the plain PPS path at [sec.nsec], the lines reading
    [state] afterwards; no kernel PPS. *)
Definition seen_at (sec nsec state : Z) : wakeup :=
  {| miwait_ok := true;
     now := Some {| tv_sec := sec; tv_nsec := nsec |};
     mget := Some state; fetch := None |}.

Definition edge_at (sec nsec state : Z) : action :=
  Wakeup (seen_at sec nsec state).

(** A thread that follows a narrow 1 Hz pulse: the fix for second
    1700000000 arrived at clock 1000.0, the last assert edge was seen at
    999.5 and the last clear edge at 999.55. *)
Definition tracking_thread : pps_thread_t :=
  pps_thread_stash_fixtime (fresh_thread "/dev/ttyS0")
    {| tv_sec := 1700000000; tv_nsec := 0 |}
    {| tv_sec := 1000; tv_nsec := 0 |}.

Definition tracking_locals : locals :=
  {| last_second_used := 1699999999; unchanged := 0; state_last := 0;
     pulse := ({| tv_sec := 999; tv_nsec := 550000000 |},
               {| tv_sec := 999; tv_nsec := 500000000 |});
     pulse_kpps := (zero_ts, zero_ts) |}.

(** The same locals once second 1700000000 has been published. *)
Definition served_locals : locals :=
  mk_locals 1700000000 (unchanged tracking_locals)
    (state_last tracking_locals) (pulse tracking_locals)
    (pulse_kpps tracking_locals).

(** Locals after nine bad wake-ups in a row with the lines at 64. *)
Definition stuck_locals : locals :=
  mk_locals 1699999999 9 64 (pulse tracking_locals)
    (pulse_kpps tracking_locals).

(** A wake-up whose [ioctl(TIOCMGET)] fails. *)
Definition lost_lines : wakeup :=
  {| miwait_ok := true;
     now := Some {| tv_sec := 1000; tv_nsec := 500000000 |};
     mget := None; fetch := None |}.

(** A fix for second 1700000000 arrives at clock 1000.0 and no other
    follows; the pulse sets in later: assert at 1001.5, clear at 1001.55,
    assert at 1002.5, two and a half seconds after the fix. *)
Definition stale_fix_scenario : list action :=
  [ Stash {| tv_sec := 1700000000; tv_nsec := 0 |}
          {| tv_sec := 1000; tv_nsec := 0 |};
    Guard; edge_at 1001 500000000 64;
    Guard; edge_at 1001 550000000 0;
    Guard; edge_at 1002 500000000 64 ].

(** A Linux system run by root where the PPS device opens as descriptor
    0 and the RFC2783 handle is that descriptor. *)
Definition os_descriptor_zero : kpps_os :=
  {| linux := true; os_isatty := true; os_setd := true; os_glob := [];
     os_uid := 0; os_open := fun _ => 0; os_create := fun fd => Some fd;
     os_getcap := true; os_setparams := true |}.

(** The content of a sysfs path attribute: a name and a newline. *)
Definition sysfs_line (name : string) : string :=
  (name ++ String (Ascii.ascii_of_nat 10) EmptyString)%string.

(** A Linux system run by root with two PPS devices, pps0 on ttyS1 and
    pps1 on ttyS0; a PPS device opens as descriptor 7. *)
Definition os_two_pps : kpps_os :=
  {| linux := true; os_isatty := true; os_setd := true;
     os_glob := [("/sys/devices/virtual/pps/pps0/path",
                  sysfs_line "/dev/ttyS1");
                 ("/sys/devices/virtual/pps/pps1/path",
                  sysfs_line "/dev/ttyS0")];
     os_uid := 0; os_open := fun _ => 7; os_create := fun fd => Some fd;
     os_getcap := true; os_setparams := true |}.

(** The same system where [time_pps_setparams] fails. *)
Definition os_no_setparams : kpps_os :=
  {| linux := true; os_isatty := true; os_setd := true;
     os_glob := os_glob os_two_pps;
     os_uid := 0; os_open := fun _ => 7; os_create := fun fd => Some fd;
     os_getcap := true; os_setparams := false |}.

(** A Linux system where the caller is not root. *)
Definition os_unprivileged : kpps_os :=
  {| linux := true; os_isatty := true; os_setd := true; os_glob := [];
     os_uid := 1000; os_open := fun _ => 7; os_create := fun fd => Some fd;
     os_getcap := true; os_setparams := true |}.

(** ** Vocabulary of the further properties *)

(** The instant a timespec stands for, in nanoseconds. *)
Definition nanoseconds (ts : timespec) : Z :=
  tv_sec ts * 1000000000 + tv_nsec ts.

(** The same span of time in the other direction. *)
Definition opposite (ts : timespec) : timespec :=
  {| tv_sec := - tv_sec ts; tv_nsec := - tv_nsec ts |}.

(** [a] is not before [b], seconds first, as lines 489-501 compare. *)
Definition not_before (a b : timespec) : Prop :=
  tv_sec a > tv_sec b \/ (tv_sec a = tv_sec b /\ tv_nsec a >= tv_nsec b).

Definition strictly_after (a b : timespec) : Prop :=
  tv_sec a > tv_sec b \/ (tv_sec a = tv_sec b /\ tv_nsec a > tv_nsec b).

(** The edge, cycle and duration a pass computes from the state and the
    clock reading (lines 447-448 and 540-541). *)
Definition pass_edge (mask : Z) (l : locals) (state : Z) : Z :=
  if Z.land state mask >? state_last l then 1 else 0.

Definition pass_cycle (mask : Z) (l : locals) (clock_ts : timespec)
  (state : Z) : Z :=
  diff_us clock_ts (at_edge (pulse l) (pass_edge mask l state)).

Definition pass_duration (mask : Z) (l : locals) (clock_ts : timespec)
  (state : Z) : Z :=
  diff_us clock_ts (at_edge (pulse l) (other_edge (pass_edge mask l state))).

(** What [stuck_state] makes of a pass (lines 543-563). *)
Definition pass_stuck (mask : Z) (pt : pps_thread_t) (l : locals)
  (clock_ts : timespec) (state : Z) : Z * Z * list event :=
  stuck_state (devicename pt) (Z.land state mask) (state_last l)
    (pass_cycle mask l clock_ts state) (pass_duration mask l clock_ts state)
    (unchanged l).

(** The clock instant a pass would hand out (lines 682-692). *)
Definition pass_clock (pt : pps_thread_t) (l : locals) (w : wakeup)
  (clock_ts : timespec) : timespec :=
  fst (chosen_clock (kernelpps_handle pt)
         (snd (fst (kpps_check (kernelpps_handle pt) l w))) clock_ts).

(** The conditions under which lines 601-734 let an edge through. *)
Definition pass_goes_through (mask : Z) (pt : pps_thread_t) (l : locals)
  (w : wakeup) (clock_ts : timespec) (state : Z) : Prop :=
  tv_sec (fixin_real pt) <> 0
  /\ snd (fst (pass_stuck mask pt l clock_ts state)) = 0
  /\ fst (classify (pass_cycle mask l clock_ts state)
            (fst (fst (pass_stuck mask pt l clock_ts state)))
            (pass_edge mask l state)) = true
  /\ last_second_used l < tv_sec (fixin_real pt)
  /\ delay_verdict (TS_SUB (pass_clock pt l w clock_ts) (fixin_clock pt))
     = None.

(** The events a pass of the loop body can produce: calls of the log,
    report and publish hooks, the write of the published pair, and the
    pause. *)
Definition is_pass_event (e : event) : bool :=
  match e with
  | Log _ _ _ | Report _ | Pps _ | Stored _ | Sleep _ => true
  | _ => false
  end.

(** One of the three system calls of the time-critical section fails. *)
Definition call_fails (w : wakeup) : Prop :=
  miwait_ok w = false \/ now w = None \/ mget w = None.

Definition is_returned (p : pc) : bool :=
  match p with Returned => true | _ => false end.

(** Passes a worker may still run once both hooks are [NULL]: the one
    it is waiting in, if any. *)
Definition passes_left (p : pc) : nat :=
  match p with Waiting => 1%nat | _ => 0%nat end.

(** The log line of the sysfs search for one match of the glob. *)
Definition checking (entry : string * string) : event :=
  Log THREAD_INF "KPPS checking %s, %s" (fst entry).

(** A sysfs entry whose content, newline cut off, is the device name. *)
Definition names_device (name : string) (entry : string * string) : Prop :=
  drop_last (snd entry) = name.

(** The events up to the point where [init_kernel_pps] has its
    descriptor: logs, the line discipline, the open. *)
Definition is_lookup_event (e : event) : bool :=
  match e with
  | Log _ _ _ | SetLdisc _ | OpenRdwr _ => true
  | _ => false
  end.

Definition is_wrap (e : event) : bool :=
  match e with Wrap => true | _ => false end.

Definition is_hook_output (e : event) : bool :=
  match e with Report _ | Pps _ => true | _ => false end.

Definition is_sleep (e : event) : bool :=
  match e with Sleep _ => true | _ => false end.

(** * Properties *)

(** Turns the integer tests of the goal into facts for [lia]. *)
Ltac z_tests :=
  repeat (match goal with
          | |- context [?a >? ?b] => rewrite (Z.gtb_ltb a b)
          | |- context [?a >=? ?b] => rewrite (Z.geb_leb a b)
          | |- context [?a <=? ?b] => destruct (Z.leb_spec a b)
          | |- context [?a <? ?b] => destruct (Z.ltb_spec a b)
          | |- context [?a =? ?b] => destruct (Z.eqb_spec a b)
          end; cbn [andb orb negb tv_sec tv_nsec]).

(** ** Timespec arithmetic *)

Lemma TS_NORM_cases (ts : timespec) :
  TS_NORM ts = ts
  \/ TS_NORM ts = {| tv_sec := tv_sec ts + 1; tv_nsec := tv_nsec ts - 1000000000 |}
  \/ TS_NORM ts = {| tv_sec := tv_sec ts - 1; tv_nsec := tv_nsec ts + 1000000000 |}.
Proof.
  unfold TS_NORM.
  destruct ((1 <=? tv_sec ts) || ((0 =? tv_sec ts) && (0 <=? tv_nsec ts)));
    [ destruct (1000000000 <=? tv_nsec ts); [ | destruct (0 >? tv_nsec ts) ]
    | destruct (-1000000000 >=? tv_nsec ts); [ | destruct (0 <? tv_nsec ts) ] ];
    auto.
Qed.

(** Normalisation neither adds nor loses time. *)
Lemma TS_NORM_same_instant (ts : timespec) :
  timespec_diff_ns (TS_NORM ts) ts = 0.
Proof.
  destruct (TS_NORM_cases ts) as [E | [E | E]]; rewrite E;
    unfold timespec_diff_ns; simpl; lia.
Qed.

(** No step of [TS_NORM] leaves the machine ranges, as long as the
    seconds are not at the very end of [time_t]. *)
Lemma TS_NORM_fits (ts : timespec) :
  fits ts ->
  -9223372036854775808 < tv_sec ts < 9223372036854775807 ->
  fits (TS_NORM ts).
Proof.
  destruct ts as [s n]; unfold fits, TS_NORM; cbn [tv_sec tv_nsec];
    intros [Hs Hn] Hs'.
  z_tests; lia.
Qed.

(** With one borrow or carry to do, the result obeys the sign rules and
    has less than a second of nanoseconds. *)
Lemma TS_NORM_normalizes (ts : timespec) :
  -2000000000 < tv_nsec ts < 2000000000 ->
  one_carry ts ->
  normalized (TS_NORM ts).
Proof.
  destruct ts as [s n]; unfold one_carry, normalized, sign_rules, TS_NORM;
    cbn [tv_sec tv_nsec]; intros Hn [Hp Hm].
  z_tests; lia.
Qed.

(** [TS_NORM] leaves a normalised value alone. *)
Lemma TS_NORM_fixes_normalized (ts : timespec) :
  normalized ts -> TS_NORM ts = ts.
Proof.
  destruct ts as [s n]; unfold normalized, sign_rules, TS_NORM;
    cbn [tv_sec tv_nsec].
  intros [[Hp Hm] Hn].
  z_tests; try reflexivity; lia.
Qed.

(** The field-wise difference of two normalised values, the input
    [TS_SUB] hands to [TS_NORM], needs one borrow or carry at most. *)
Lemma difference_one_carry (a b : timespec) :
  normalized a -> normalized b ->
  one_carry {| tv_sec := tv_sec a - tv_sec b; tv_nsec := tv_nsec a - tv_nsec b |}
  /\ -2000000000 < tv_nsec a - tv_nsec b < 2000000000.
Proof.
  unfold normalized, sign_rules, one_carry; simpl.
  intros [[Hap Ham] Han] [[Hbp Hbm] Hbn].
  repeat split; lia.
Qed.

Lemma TS_SUB_normalized (a b : timespec) :
  normalized a -> normalized b -> normalized (TS_SUB a b).
Proof.
  intros Ha Hb. destruct (difference_one_carry a b Ha Hb) as [Hc Hn].
  unfold TS_SUB. apply TS_NORM_normalizes; simpl; assumption.
Qed.

Lemma TS_SUB_self (a : timespec) : TS_SUB a a = zero_ts.
Proof.
  unfold TS_SUB. rewrite !Z.sub_diag. reflexivity.
Qed.

(** C2, as the spec states it, fails: five seconds minus one and a half
    come out as four seconds and minus half a second. *)
Lemma TS_NORM_sign_rules_fails :
  Z.abs (tv_nsec {| tv_sec := 5; tv_nsec := -1500000000 |}) < 2000000000
  /\ ~ sign_rules (TS_NORM {| tv_sec := 5; tv_nsec := -1500000000 |}).
Proof.
  split; [ reflexivity | ].
  unfold sign_rules; simpl. intros [Hp _]. lia.
Qed.

(** C2, amended: for an input with [|tv_nsec| < 2 * 10^9], the result of
    [TS_NORM] obeys the sign rules (seconds positive: nanoseconds in
    [0, 10^9); seconds negative: nanoseconds in (-10^9, 0]; seconds zero:
    either sign) exactly when one borrow or carry is enough, that is
    unless [tv_sec >= 2] with [tv_nsec < -10^9] or [tv_sec <= -2] with
    [tv_nsec > 10^9]. *)
Theorem TS_NORM_sign_rules_iff (ts : timespec) :
  Z.abs (tv_nsec ts) < 2000000000 ->
  (sign_rules (TS_NORM ts) <-> one_carry ts).
Proof.
  intros Hn. split.
  - destruct ts as [s n]; unfold one_carry, sign_rules, TS_NORM in *;
      cbn [tv_sec tv_nsec] in *.
    z_tests; intros [Hp Hm]; split; lia.
  - intros Hc. apply TS_NORM_normalizes; [ lia | assumption ].
Qed.

Lemma TS_NORM_sign_rules_iff_witness :
  Z.abs (tv_nsec {| tv_sec := 7; tv_nsec := -999999999 |}) < 2000000000
  /\ (sign_rules (TS_NORM {| tv_sec := 7; tv_nsec := -999999999 |})
      <-> one_carry {| tv_sec := 7; tv_nsec := -999999999 |}).
Proof.
  split; [ reflexivity | ].
  apply (TS_NORM_sign_rules_iff {| tv_sec := 7; tv_nsec := -999999999 |}).
  reflexivity.
Defined.

(** C3, as the spec states it, fails on the same input: a second pass
    of [TS_NORM] borrows once more. *)
Lemma TS_NORM_not_idempotent :
  TS_NORM (TS_NORM {| tv_sec := 5; tv_nsec := -1500000000 |})
  <> TS_NORM {| tv_sec := 5; tv_nsec := -1500000000 |}.
Proof.
  simpl. intros H. inversion H.
Qed.

(** C3, amended: for an input with [|tv_nsec| < 2 * 10^9],
    [TS_NORM (TS_NORM x) = TS_NORM x] exactly when one borrow or carry is
    enough for [x], that is unless [tv_sec >= 2] with [tv_nsec < -10^9]
    or [tv_sec <= -2] with [tv_nsec > 10^9]. *)
Theorem TS_NORM_idempotent_iff (x : timespec) :
  Z.abs (tv_nsec x) < 2000000000 ->
  (TS_NORM (TS_NORM x) = TS_NORM x <-> one_carry x).
Proof.
  intros Hn. split.
  - destruct x as [s n]; unfold one_carry; cbn [tv_sec tv_nsec] in *.
    remember (TS_NORM {| tv_sec := s; tv_nsec := n |}) as y eqn:Hy.
    destruct y as [s' n']. intros Heq.
    unfold TS_NORM in Hy, Heq; cbn [tv_sec tv_nsec] in Hy, Heq.
    revert Hy Heq.
    z_tests; intros Hy Heq; inversion Hy; inversion Heq; lia.
  - intros Hc. apply TS_NORM_fixes_normalized.
    apply TS_NORM_normalizes; [ lia | assumption ].
Qed.

Lemma TS_NORM_idempotent_iff_witness :
  Z.abs (tv_nsec {| tv_sec := 0; tv_nsec := 1999999999 |}) < 2000000000
  /\ (TS_NORM (TS_NORM {| tv_sec := 0; tv_nsec := 1999999999 |})
      = TS_NORM {| tv_sec := 0; tv_nsec := 1999999999 |}
      <-> one_carry {| tv_sec := 0; tv_nsec := 1999999999 |}).
Proof.
  split; [ reflexivity | ].
  apply (TS_NORM_idempotent_iff {| tv_sec := 0; tv_nsec := 1999999999 |}).
  reflexivity.
Defined.

(** ** Kernel PPS setup *)

Lemma find_pps_logs (name : string) (g : list (string * string)) :
  Forall is_log (snd (find_pps name g)).
Proof.
  induction g as [| [pathv bytes] rest IH]; simpl.
  - constructor.
  - destruct (String.eqb (drop_last bytes) name).
    + repeat constructor. unfold is_log; eauto.
    + destruct (find_pps name rest) as [c evs]; simpl in *.
      constructor; [ unfold is_log; eauto | assumption ].
Qed.

(** Finding the device path opens nothing for the RFC2783 calls. *)
Lemma linux_pps_path_events (os : kpps_os) (pt : pps_thread_t) (e : event) :
  In e (fst (linux_pps_path os pt)) ->
  is_log e \/ e = SetLdisc (devicefd pt).
Proof.
  unfold linux_pps_path.
  destruct (String.prefix "/dev/pps" (devicename pt)); [ intros [] | ].
  destruct (os_setd os); cbn [negb].
  - pose proof (find_pps_logs (devicename pt) (os_glob os)) as Hlogs.
    destruct (find_pps (devicename pt) (os_glob os)) as [c evs].
    cbn [snd] in Hlogs. rewrite Forall_forall in Hlogs.
    destruct (Ascii.eqb c Ascii.zero); cbn [fst In]; intros [<- | Hin]; auto.
    apply in_app_or in Hin. destruct Hin as [Hin | [<- | []]]; auto.
    left. unfold is_log; eauto.
  - cbn [fst In]. intros [<- | [<- | []]]; auto.
    left. unfold is_log; eauto.
Qed.

(** C10: on Linux, whenever the process is not root, [init_kernel_pps]
    returns -1 and leaves [kernelpps_handle] at -1, whatever the device
    name (a name that begins with /dev/pps included); neither the open of
    the PPS device nor [time_pps_create] is reached. *)
Theorem init_kernel_pps_needs_root (os : kpps_os) (pt : pps_thread_t) :
  linux os = true ->
  os_uid os <> 0 ->
  fst (fst (init_kernel_pps os pt)) = -1
  /\ kernelpps_handle (snd (fst (init_kernel_pps os pt))) = -1
  /\ (forall path, ~ In (OpenRdwr path) (snd (init_kernel_pps os pt)))
  /\ (forall fd, ~ In (PpsCreate fd) (snd (init_kernel_pps os pt))).
Proof.
  intros Hlinux Huid. unfold init_kernel_pps.
  destruct (os_isatty os); cbn [negb].
  - unfold kpps_descriptor. rewrite Hlinux.
    pose proof (linux_pps_path_events os (set_kernelpps_handle pt (-1)))
      as Hev.
    destruct (linux_pps_path os (set_kernelpps_handle pt (-1)))
      as [evs [path |]]; cbn [fst] in Hev.
    + destruct (Z.eqb_spec 0 (os_uid os)) as [E | _]; [ congruence | ].
      cbn [negb fst snd]. repeat split; try reflexivity.
      * intros p Hin. apply in_app_or in Hin.
        destruct Hin as [Hin | [Hin | []]]; [ | discriminate ].
        destruct (Hev _ Hin) as [(l & f & a & E) | E]; discriminate.
      * intros fd Hin. apply in_app_or in Hin.
        destruct Hin as [Hin | [Hin | []]]; [ | discriminate ].
        destruct (Hev _ Hin) as [(l & f & a & E) | E]; discriminate.
    + cbn [fst snd]. repeat split; try reflexivity.
      * intros p Hin.
        destruct (Hev _ Hin) as [(l & f & a & E) | E]; discriminate.
      * intros fd Hin.
        destruct (Hev _ Hin) as [(l & f & a & E) | E]; discriminate.
  - cbn [fst snd]. repeat split; try reflexivity.
    + intros p [Hin | []]; discriminate.
    + intros fd [Hin | []]; discriminate.
Qed.

Lemma init_kernel_pps_needs_root_witness :
  String.prefix "/dev/pps" (devicename (fresh_thread "/dev/pps0")) = true
  /\ fst (fst (init_kernel_pps os_unprivileged (fresh_thread "/dev/pps0"))) = -1
  /\ kernelpps_handle
       (snd (fst (init_kernel_pps os_unprivileged (fresh_thread "/dev/pps0"))))
     = -1
  /\ (forall path,
        ~ In (OpenRdwr path)
            (snd (init_kernel_pps os_unprivileged (fresh_thread "/dev/pps0"))))
  /\ (forall fd,
        ~ In (PpsCreate fd)
            (snd (init_kernel_pps os_unprivileged (fresh_thread "/dev/pps0")))).
Proof.
  split; [ reflexivity | ].
  apply (init_kernel_pps_needs_root os_unprivileged (fresh_thread "/dev/pps0")).
  - reflexivity.
  - simpl. lia.
Defined.

(** As root, the same device is opened: the test of [getuid] is what
    makes the difference. *)
Lemma init_kernel_pps_as_root :
  init_kernel_pps os_descriptor_zero (fresh_thread "/dev/pps0")
  = (0, set_kernelpps_handle (fresh_thread "/dev/pps0") 0,
     [OpenRdwr "/dev/pps0"; Log THREAD_INF "KPPS RFC2783 fd is %d" no_arg;
      PpsCreate 0; Log THREAD_INF "KPPS caps %0x" no_arg; PpsSetparams 0]).
Proof. reflexivity. Qed.

(** ** Leaving the thread *)

(** The handle is destroyed on the way out exactly when it is positive. *)
Lemma teardown_destroy_iff (pt : pps_thread_t) (h : Z) :
  In (PpsDestroy h) (teardown pt) <-> h = kernelpps_handle pt /\ h > 0.
Proof.
  unfold teardown. rewrite Z.gtb_ltb.
  destruct (Z.ltb_spec 0 (kernelpps_handle pt)); destruct (wrap_hook pt);
    cbn [app In]; split.
  all: try (intros [E | [E | [E | [E | []]]]]; try discriminate;
            inversion E; lia).
  all: try (intros [E | [E | [E | []]]]; try discriminate; inversion E; lia).
  all: try (intros [E | [E | []]]; try discriminate; inversion E; lia).
  all: try (intros [E | []]; try discriminate; inversion E; lia).
  all: intros [-> Hpos]; try lia; auto.
Qed.

(** A positive handle is destroyed before the wrap hook runs. *)
Lemma teardown_positive_handle (pt : pps_thread_t) :
  kernelpps_handle pt > 0 ->
  teardown pt
  = Log THREAD_PROG "PPS descriptor cleaned up" no_arg
      :: PpsDestroy (kernelpps_handle pt)
      :: (if wrap_hook pt then [Wrap] else [])
      ++ [Log THREAD_PROG "PPS gpsd_ppsmonitor exited." no_arg].
Proof.
  intros Hpos. unfold teardown. rewrite Z.gtb_ltb.
  destruct (Z.ltb_spec 0 (kernelpps_handle pt)); [ reflexivity | lia ].
Qed.

(** C7: the code departs from the claim for the handle 0.  Setup by
    root on a system where the PPS device opens as descriptor 0 leaves
    [kernelpps_handle = 0]; [pps_thread_activate] takes it as valid
    ("KPPS kernel PPS will be used"), and so does every pass of the loop,
    but on exit the thread calls the wrap hook without destroying it. *)
Theorem handle_zero_not_destroyed :
  let '(pt, _, evs) :=
    pps_thread_activate os_descriptor_zero true (fresh_thread "/dev/pps0") in
  kernelpps_handle pt = 0
  /\ In (Log THREAD_WARN "KPPS kernel PPS will be used" no_arg) evs
  /\ teardown pt = [Wrap; Log THREAD_PROG "PPS gpsd_ppsmonitor exited." no_arg].
Proof.
  cbv. repeat split. auto 10.
Qed.

(** ** One pass of the loop *)

Lemma outputs_app (a b : list event) : outputs (a ++ b) = outputs a ++ outputs b.
Proof. apply filter_app. Qed.

Lemma kpps_check_quiet (handle : Z) (l : locals) (w : wakeup) :
  outputs (snd (kpps_check handle l w)) = [].
Proof.
  unfold kpps_check.
  destruct (0 <=? handle); [ | reflexivity ].
  destruct (fetch w) as [pi |]; [ | reflexivity ].
  destruct (newer_edge pi) as [e ts]. reflexivity.
Qed.

Lemma stuck_state_quiet (name : string) (st sl cy du un : Z) :
  outputs (snd (stuck_state name st sl cy du un)) = [].
Proof.
  unfold stuck_state.
  destruct (st =? sl); [ | reflexivity ].
  destruct ((999000 <? cy) && (1001000 >? cy)); [ reflexivity | ].
  destruct (un + 1 =? 10); reflexivity.
Qed.

Lemma chosen_clock_quiet (handle : Z) (kpps : option (Z * pps_info_t))
  (clock_ts : timespec) :
  outputs (snd (chosen_clock handle kpps clock_ts)) = [].
Proof.
  unfold chosen_clock.
  destruct kpps as [[e pi] |]; [ | reflexivity ].
  destruct (0 <=? handle); reflexivity.
Qed.

(** [dedup] lets an edge through only if the classifier did and the
    second of the fix is new. *)
Lemma dedup_true (v : bool * string) (lsu : Z) (fix_real : timespec)
  (log : string) :
  dedup v lsu fix_real = (true, log) ->
  v = (true, log) /\ lsu < tv_sec fix_real.
Proof.
  unfold dedup. destruct v as [ok lg]; cbn [fst].
  destruct ok; cbn [andb].
  - rewrite Z.geb_leb. destruct (Z.leb_spec (tv_sec fix_real) lsu).
    + discriminate.
    + intros E; split; [ assumption | lia ].
  - discriminate.
Qed.

(** The branch of an accepted edge either refuses the fix and changes
    nothing, or publishes the top of the second after the fix. *)
Lemma accepted_result (pt : pps_thread_t) (l : locals)
  (fix_real fix_clock clock_ts : timespec) (log : string)
  (kpps : option (Z * pps_info_t)) :
  let r := accepted pt l fix_real fix_clock clock_ts log kpps in
  (r = (l, pt, snd r) /\ outputs (snd r) = [])
  \/ (exists c,
        let td := {| real := top_of_second fix_real; clock := c |} in
        delay_verdict (TS_SUB c fix_clock) = None
        /\ last_second_used (fst (fst r)) = tv_sec fix_real
        /\ unchanged (fst (fst r)) = unchanged l
        /\ state_last (fst (fst r)) = state_last l
        /\ pulse (fst (fst r)) = pulse l
        /\ snd (fst r) = set_ppsout pt td (ppsout_count pt + 1)
        /\ outputs (snd r) = publication_of pt td).
Proof.
  unfold accepted.
  pose proof (chosen_clock_quiet (kernelpps_handle pt) kpps clock_ts) as Hq.
  destruct (chosen_clock (kernelpps_handle pt) kpps clock_ts) as [c evk].
  cbn [snd] in Hq. cbn [clock].
  destruct (delay_verdict (TS_SUB c fix_clock)) eqn:Hd; cbn zeta.
  - left. cbn [fst snd]. split; [ reflexivity | ].
    change (Log THREAD_RAW "PPS edge accepted %.100s" log :: evk)
      with ([Log THREAD_RAW "PPS edge accepted %.100s" log] ++ evk).
    rewrite !outputs_app, Hq. reflexivity.
  - right. exists c. cbn [fst snd last_second_used unchanged state_last pulse].
    repeat split; try assumption.
    change (Log THREAD_RAW "PPS edge accepted %.100s" log :: evk)
      with ([Log THREAD_RAW "PPS edge accepted %.100s" log] ++ evk).
    rewrite !outputs_app, Hq. unfold publication_of.
    destruct (report_hook pt); destruct (pps_hook pt); reflexivity.
Qed.

(** Every pass is of one of two kinds.  A quiet pass leaves the context
    and [last_second_used] as they were and hands nothing out.  A pass
    that publishes had a fix with a new, non-zero second that
    [delay_verdict] let through; it records that second, stores the top of
    the next second with the chosen clock instant and hands the same pair
    to the hooks. *)
Lemma iteration_result (mask : Z) (pt : pps_thread_t) (l : locals) (w : wakeup) :
  let p := iteration mask pt l w in
  (thread_of p = pt
   /\ last_second_used (locals_of p) = last_second_used l
   /\ outputs (events_of p) = [])
  \/ (exists c,
        let td := {| real := top_of_second (fixin_real pt); clock := c |} in
        flow_of p = Next
        /\ tv_sec (fixin_real pt) <> 0
        /\ last_second_used l < tv_sec (fixin_real pt)
        /\ delay_verdict (TS_SUB c (fixin_clock pt)) = None
        /\ last_second_used (locals_of p) = tv_sec (fixin_real pt)
        /\ thread_of p = set_ppsout pt td (ppsout_count pt + 1)
        /\ outputs (events_of p) = publication_of pt td).
Proof.
  unfold iteration.
  destruct (miwait_ok w); cbn [negb]; [ | left; auto ].
  destruct (now w) as [clock_ts |]; [ | left; auto ].
  destruct (mget w) as [state |]; [ | left; auto ].
  destruct (Z.eqb_spec (tv_sec (fixin_real pt)) 0) as [E0 | N0];
    [ left; auto | ].
  set (st := Z.land state mask).
  set (edge := if st >? state_last l then 1 else 0).
  pose proof (kpps_check_quiet (kernelpps_handle pt) l w) as Hk.
  destruct (kpps_check (kernelpps_handle pt) l w) as [[pk kpps] evk].
  cbn [snd] in Hk.
  set (cycle := diff_us clock_ts (at_edge (pulse l) edge)).
  set (duration := diff_us clock_ts (at_edge (pulse l) (other_edge edge))).
  pose proof (stuck_state_quiet (devicename pt) st (state_last l) cycle
                duration (unchanged l)) as Hs.
  destruct (stuck_state (devicename pt) st (state_last l) cycle duration
              (unchanged l)) as [[dur un] evs].
  cbn [snd] in Hs.
  set (ev1 := _ :: evk ++ evs ++ _).
  assert (H1 : outputs ev1 = []).
  { subst ev1.
    match goal with
    | |- outputs (?e :: ?r) = _ => change (e :: r) with ([e] ++ r)
    end.
    rewrite !outputs_app, Hk, Hs. reflexivity. }
  destruct (un =? 0); cbn [negb]; [ | left; auto ].
  cbn [last_second_used].
  destruct (dedup (classify cycle dur edge) (last_second_used l)
              (fixin_real pt)) as [ok log] eqn:Hdd.
  destruct ok.
  - apply dedup_true in Hdd. destruct Hdd as [_ Hnew].
    match goal with
    | |- context [accepted ?a ?b ?c ?d ?e ?f ?g] =>
        pose proof (accepted_result a b c d e f g) as Ha;
        destruct (accepted a b c d e f g) as [[l2 pt2] ev2]
    end.
    cbn [fst snd] in Ha. cbn zeta in Ha.
    destruct Ha as [[Ha Hq] | (c & Hd & Hl & _ & _ & _ & Hp & Ho)].
    + left. inversion Ha; subst. cbn [thread_of locals_of events_of].
      rewrite outputs_app, H1, Hq. auto.
    + right. exists c. cbn [thread_of locals_of events_of flow_of].
      rewrite outputs_app, H1, Ho. auto 10.
  - left. cbn [thread_of locals_of events_of].
    rewrite outputs_app, H1. auto.
Qed.

Lemma stored_is_output (td : timedelta_t) (evs : list event) :
  In (Stored td) evs -> In (Stored td) (outputs evs).
Proof.
  intros Hin. apply filter_In. split; [ assumption | reflexivity ].
Qed.

Lemma stored_in_publication (pt : pps_thread_t) (td td' : timedelta_t) :
  In (Stored td') (publication_of pt td) -> td' = td.
Proof.
  unfold publication_of.
  destruct (report_hook pt); destruct (pps_hook pt); cbn [app In];
    intuition (try discriminate; congruence).
Qed.

(** The counter moves exactly in the passes that store a pair. *)
Lemma count_moves_iff_stored (mask : Z) (pt : pps_thread_t) (l : locals)
  (w : wakeup) :
  ppsout_count (thread_of (iteration mask pt l w)) <> ppsout_count pt
  <-> exists td, In (Stored td) (events_of (iteration mask pt l w)).
Proof.
  destruct (iteration_result mask pt l w)
    as [(Hpt & _ & Hq) | (c & _ & _ & _ & _ & _ & Hpt & Ho)].
  - rewrite Hpt. split; [ intros N; now elim N | ].
    intros [td Hin]. apply stored_is_output in Hin. rewrite Hq in Hin.
    destruct Hin.
  - rewrite Hpt. cbn [set_ppsout ppsout_count]. split; [ | lia ].
    intros _. eexists.
    assert (Hin : In (Stored {| real := top_of_second (fixin_real pt);
                                clock := c |})
                     (outputs (events_of (iteration mask pt l w)))).
    { rewrite Ho. unfold publication_of. apply in_or_app. right.
      apply in_or_app. right. left. reflexivity. }
    apply filter_In in Hin. exact (proj1 Hin).
Qed.

(** C4: in every pass that publishes, the pair stored in [ppsout_last]
    has [real.tv_nsec = 0] and [real.tv_sec] one more than the seconds of
    the fix copied from [fixin_real] in that pass; the counter goes up by
    one. *)
Theorem published_real_is_next_second (mask : Z) (pt : pps_thread_t)
  (l : locals) (w : wakeup) (td : timedelta_t) :
  In (Stored td) (events_of (iteration mask pt l w)) ->
  ppsout_last (thread_of (iteration mask pt l w)) = td
  /\ ppsout_count (thread_of (iteration mask pt l w)) = ppsout_count pt + 1
  /\ tv_nsec (real (ppsout_last (thread_of (iteration mask pt l w)))) = 0
  /\ tv_sec (real (ppsout_last (thread_of (iteration mask pt l w))))
     = tv_sec (fixin_real pt) + 1.
Proof.
  intros Hin. apply stored_is_output in Hin.
  destruct (iteration_result mask pt l w)
    as [(_ & _ & Hq) | (c & _ & _ & _ & _ & _ & Hpt & Ho)].
  - rewrite Hq in Hin. destruct Hin.
  - rewrite Ho in Hin. apply stored_in_publication in Hin. subst td.
    rewrite Hpt. cbn. auto.
Qed.

Lemma published_real_is_next_second_witness :
  In (Stored {| real := {| tv_sec := 1700000001; tv_nsec := 0 |};
                clock := {| tv_sec := 1000; tv_nsec := 500000000 |} |})
     (events_of (iteration linux_lines tracking_thread tracking_locals
                   (seen_at 1000 500000000 64)))
  /\ tv_sec (real (ppsout_last
                     (thread_of (iteration linux_lines tracking_thread
                                   tracking_locals
                                   (seen_at 1000 500000000 64)))))
     = tv_sec (fixin_real tracking_thread) + 1.
Proof.
  assert (Hin : In (Stored {| real := {| tv_sec := 1700000001; tv_nsec := 0 |};
                             clock := {| tv_sec := 1000;
                                         tv_nsec := 500000000 |} |})
                  (events_of (iteration linux_lines tracking_thread
                                tracking_locals (seen_at 1000 500000000 64)))).
  { vm_compute. do 6 right. left. reflexivity. }
  split; [ exact Hin | ].
  exact (proj2 (proj2 (proj2
    (published_real_is_next_second linux_lines tracking_thread
       tracking_locals (seen_at 1000 500000000 64) _ Hin)))).
Defined.

(** ** Runs of the worker *)

Lemma publications_app (a b : list event) :
  publications (a ++ b) = publications a ++ publications b.
Proof.
  induction a as [| e a IH]; [ reflexivity | ].
  destruct e; cbn [app publications]; rewrite IH; reflexivity.
Qed.

Lemma publications_outputs (evs : list event) :
  publications (outputs evs) = publications evs.
Proof.
  induction evs as [| e evs IH]; [ reflexivity | ].
  destruct e; cbn [outputs filter is_output publications];
    fold (outputs evs); rewrite ?IH; reflexivity.
Qed.

Lemma publications_publication (pt : pps_thread_t) (td : timedelta_t) :
  publications (publication_of pt td) = [td].
Proof.
  unfold publication_of.
  destruct (report_hook pt); destruct (pps_hook pt); reflexivity.
Qed.

Lemma publications_teardown (pt : pps_thread_t) : publications (teardown pt) = [].
Proof.
  unfold teardown.
  destruct (kernelpps_handle pt >? 0); destruct (wrap_hook pt); reflexivity.
Qed.

Lemma outputs_teardown (pt : pps_thread_t) : outputs (teardown pt) = [].
Proof.
  unfold teardown.
  destruct (kernelpps_handle pt >? 0); destruct (wrap_hook pt); reflexivity.
Qed.

Lemma after_pass_state (p : pass) :
  ctx (fst (after_pass p)) = thread_of p
  /\ loc (fst (after_pass p)) = locals_of p.
Proof. unfold after_pass. destruct (flow_of p); auto. Qed.

Lemma after_pass_outputs (p : pass) :
  outputs (snd (after_pass p)) = outputs (events_of p).
Proof.
  unfold after_pass. destruct (flow_of p); cbn [snd]; [ reflexivity | ].
  rewrite outputs_app, outputs_teardown, app_nil_r. reflexivity.
Qed.

(** A step of the system publishes nothing and keeps
    [last_second_used], or publishes one pair for a second beyond it and
    records the second of its fix. *)
Lemma act_result (mask : Z) (m : worker) (a : action) :
  (publications (snd (act mask m a)) = []
   /\ last_second_used (loc (fst (act mask m a))) = last_second_used (loc m))
  \/ (exists td,
        publications (snd (act mask m a)) = [td]
        /\ tv_sec (real td) = last_second_used (loc (fst (act mask m a))) + 1
        /\ last_second_used (loc m)
           < last_second_used (loc (fst (act mask m a)))).
Proof.
  destruct a as [r c | | | w]; cbn [act].
  - left; auto.
  - left; auto.
  - destruct (at_pc m); try (left; auto; fail).
    destruct (loop_guard (ctx m)); cbn [fst snd loc].
    + left; auto.
    + left. rewrite publications_teardown. auto.
  - destruct (at_pc m); try (left; auto; fail).
    rewrite <- publications_outputs, after_pass_outputs.
    rewrite (proj2 (after_pass_state _)).
    destruct (iteration_result mask (ctx m) (loc m) w)
      as [(_ & Hl & Hq) | (c & _ & _ & Hnew & _ & Hl & _ & Ho)].
    + left. rewrite Hq. auto.
    + right. eexists. rewrite Ho, publications_publication.
      split; [ reflexivity | ]. rewrite Hl. cbn. split; lia.
Qed.

Lemma run_cons (mask : Z) (m : worker) (a : action) (rest : list action) :
  run mask m (a :: rest)
  = (fst (run mask (fst (act mask m a)) rest),
     snd (act mask m a) ++ snd (run mask (fst (act mask m a)) rest)).
Proof.
  cbn [run]. destruct (act mask m a) as [m1 ev1]. cbn [fst snd].
  destruct (run mask m1 rest) as [m2 ev2]. reflexivity.
Qed.

(** Along a run the published seconds grow strictly, and all lie more
    than one beyond the [last_second_used] the run starts with. *)
Lemma run_publications_sorted (mask : Z) (acts : list action) :
  forall m : worker,
    StronglySorted earlier_second (publications (snd (run mask m acts)))
    /\ Forall (fun td => last_second_used (loc m) + 1 < tv_sec (real td))
         (publications (snd (run mask m acts))).
Proof.
  induction acts as [| a rest IH]; intros m.
  - cbn. split; constructor.
  - rewrite run_cons. cbn [snd]. rewrite publications_app.
    destruct (IH (fst (act mask m a))) as [Hs Hf].
    destruct (act_result mask m a) as [[Hp Hl] | (td & Hp & Htd & Hl)];
      rewrite Hp; cbn [app].
    + rewrite Hl in Hf. auto.
    + split.
      * constructor; [ assumption | ].
        eapply Forall_impl; [ | exact Hf ].
        intros td' H'. unfold earlier_second. cbn beta in H'. lia.
      * constructor; [ lia | ].
        eapply Forall_impl; [ | exact Hf ].
        intros td' H'. cbn beta in H'. lia.
Qed.

Lemma sorted_seconds_unique (s : Z) (tds : list timedelta_t) :
  StronglySorted earlier_second tds ->
  (published_in_second s tds <= 1)%nat.
Proof.
  unfold published_in_second.
  induction 1 as [| td tds Hs IH Hall]; cbn [filter List.length].
  - lia.
  - destruct (Z.eqb_spec (tv_sec (real td)) s) as [E | N]; [ | assumption ].
    assert (Hnone : filter (fun td0 => tv_sec (real td0) =? s) tds = []).
    { clear IH Hs. induction Hall as [| td' tds H' _ IHall]; [ reflexivity | ].
      cbn [filter]. unfold earlier_second in H'.
      destruct (Z.eqb_spec (tv_sec (real td')) s); [ lia | assumption ]. }
    rewrite Hnone. cbn. lia.
Qed.

(** A pass that gets as far as the classifier, whose edge the classifier
    accepts, and whose fix has a second that was used already, logs the
    rejection of lines 660-664. *)
Lemma dedup_pass_rejected (mask : Z) (pt : pps_thread_t) (l : locals)
  (w : wakeup) (clock_ts : timespec) (state : Z) :
  let st := Z.land state mask in
  let edge := if st >? state_last l then 1 else 0 in
  let cycle := diff_us clock_ts (at_edge (pulse l) edge) in
  let duration := diff_us clock_ts (at_edge (pulse l) (other_edge edge)) in
  let stuck := stuck_state (devicename pt) st (state_last l) cycle duration
                 (unchanged l) in
  edge_seen w clock_ts state ->
  tv_sec (fixin_real pt) <> 0 ->
  snd (fst stuck) = 0 ->
  fst (classify cycle (fst (fst stuck)) edge) = true ->
  last_second_used l >= tv_sec (fixin_real pt) ->
  In (Log THREAD_RAW "PPS edge rejected %.100s" "this second already handled")
     (events_of (iteration mask pt l w)).
Proof.
  intros st edge cycle duration stuck (Hw & Hn & Hg) Hfix Hun Hok Hge.
  unfold iteration. rewrite Hw, Hn, Hg. cbn [negb].
  destruct (Z.eqb_spec (tv_sec (fixin_real pt)) 0) as [E | _];
    [ contradiction | ].
  fold st. fold edge. fold cycle. fold duration.
  destruct (kpps_check (kernelpps_handle pt) l w) as [[pk kpps] evk].
  fold stuck. destruct stuck as [[dur un] evs]. cbn [fst snd] in Hun, Hok.
  subst un. cbn [negb Z.eqb last_second_used].
  destruct (classify cycle dur edge) as [ok lg]. cbn [fst] in Hok. subst ok.
  unfold dedup. cbn [fst andb]. rewrite Z.geb_leb.
  destruct (Z.leb_spec (tv_sec (fixin_real pt)) (last_second_used l));
    [ | lia ].
  cbn [events_of]. apply in_or_app. right. left. reflexivity.
Qed.

(** C5: (i) [dedup] turns an edge the classifier accepted into a
    rejection "this second already handled" when [last_second_used] is
    not below the second of the copied fix, and the pass logs that
    rejection; (ii) a pass with such a fix hands nothing out and leaves
    the context alone; (iii) a pass that publishes sets
    [last_second_used] to the second of its fix; (iv) in every run, from
    any state of the worker, at most one published pair carries any given
    UTC second. *)
Theorem one_publication_per_second :
  (forall (log : string) (lsu : Z) (fix_real : timespec),
      lsu >= tv_sec fix_real ->
      dedup (true, log) lsu fix_real = (false, "this second already handled"))
  /\ (forall (mask : Z) (pt : pps_thread_t) (l : locals) (w : wakeup)
        (clock_ts : timespec) (state : Z),
         let st := Z.land state mask in
         let edge := if st >? state_last l then 1 else 0 in
         let cycle := diff_us clock_ts (at_edge (pulse l) edge) in
         let duration :=
           diff_us clock_ts (at_edge (pulse l) (other_edge edge)) in
         let stuck := stuck_state (devicename pt) st (state_last l) cycle
                        duration (unchanged l) in
         edge_seen w clock_ts state ->
         tv_sec (fixin_real pt) <> 0 ->
         snd (fst stuck) = 0 ->
         fst (classify cycle (fst (fst stuck)) edge) = true ->
         last_second_used l >= tv_sec (fixin_real pt) ->
         In (Log THREAD_RAW "PPS edge rejected %.100s"
               "this second already handled")
            (events_of (iteration mask pt l w)))
  /\ (forall (mask : Z) (pt : pps_thread_t) (l : locals) (w : wakeup),
         last_second_used l >= tv_sec (fixin_real pt) ->
         outputs (events_of (iteration mask pt l w)) = []
         /\ thread_of (iteration mask pt l w) = pt
         /\ last_second_used (locals_of (iteration mask pt l w))
            = last_second_used l)
  /\ (forall (mask : Z) (pt : pps_thread_t) (l : locals) (w : wakeup)
        (td : timedelta_t),
         In (Stored td) (events_of (iteration mask pt l w)) ->
         last_second_used (locals_of (iteration mask pt l w))
         = tv_sec (fixin_real pt))
  /\ (forall (mask : Z) (m : worker) (acts : list action) (s : Z),
         (published_in_second s (publications (snd (run mask m acts))) <= 1)%nat).
Proof.
  split; [ | split; [ | split; [ | split ] ] ].
  - intros log lsu fix_real Hge. unfold dedup. cbn [fst andb].
    rewrite Z.geb_leb.
    destruct (Z.leb_spec (tv_sec fix_real) lsu); [ reflexivity | lia ].
  - intros mask pt l w clock_ts state. apply dedup_pass_rejected.
  - intros mask pt l w Hge.
    destruct (iteration_result mask pt l w)
      as [(Hpt & Hl & Hq) | (c & _ & _ & Hnew & _)]; [ auto | lia ].
  - intros mask pt l w td Hin. apply stored_is_output in Hin.
    destruct (iteration_result mask pt l w)
      as [(_ & _ & Hq) | (c & _ & _ & _ & _ & Hl & _)]; [ | assumption ].
    rewrite Hq in Hin. destruct Hin.
  - intros mask m acts s. apply sorted_seconds_unique.
    apply run_publications_sorted.
Qed.

Lemma one_publication_per_second_witness :
  1700000000 >= tv_sec (fixin_real tracking_thread)
  /\ dedup (true, "1Hz leading edge") 1700000000 (fixin_real tracking_thread)
     = (false, "this second already handled")
  /\ In (Log THREAD_RAW "PPS edge rejected %.100s"
           "this second already handled")
        (events_of (iteration linux_lines tracking_thread served_locals
                      (seen_at 1000 500000000 64)))
  /\ (published_in_second 1700000001
        (publications
           (snd (run linux_lines (gpsd_ppsmonitor (fresh_thread "/dev/ttyS0"))
                   stale_fix_scenario))) <= 1)%nat.
Proof.
  split; [ vm_compute; discriminate | ].
  split; [ | split ].
  - apply (proj1 one_publication_per_second). vm_compute. discriminate.
  - apply (proj1 (proj2 one_publication_per_second) linux_lines
             tracking_thread served_locals (seen_at 1000 500000000 64)
             {| tv_sec := 1000; tv_nsec := 500000000 |} 64).
    + repeat split; reflexivity.
    + vm_compute. discriminate.
    + reflexivity.
    + reflexivity.
    + vm_compute. discriminate.
  - apply (proj2 (proj2 (proj2 (proj2 one_publication_per_second)))).
Defined.

(** ** Passes without a fix *)

(** With a zero second in the fix a pass changes nothing and hands
    nothing out, however its system calls end. *)
Lemma zero_fix_pass (mask : Z) (pt : pps_thread_t) (l : locals) (w : wakeup) :
  tv_sec (fixin_real pt) = 0 ->
  locals_of (iteration mask pt l w) = l
  /\ thread_of (iteration mask pt l w) = pt
  /\ outputs (events_of (iteration mask pt l w)) = [].
Proof.
  intros Hz. unfold iteration.
  destruct (miwait_ok w); cbn [negb]; [ | auto ].
  destruct (now w); [ | auto ].
  destruct (mget w); [ | auto ].
  rewrite Hz. cbn. auto.
Qed.

Lemma zero_fix_act (mask : Z) (m : worker) (a : action) :
  tv_sec (fixin_real (ctx m)) = 0 ->
  (forall r c, a = Stash r c -> tv_sec r = 0) ->
  tv_sec (fixin_real (ctx (fst (act mask m a)))) = 0
  /\ loc (fst (act mask m a)) = loc m
  /\ ppsout_last (ctx (fst (act mask m a))) = ppsout_last (ctx m)
  /\ ppsout_count (ctx (fst (act mask m a))) = ppsout_count (ctx m)
  /\ outputs (snd (act mask m a)) = [].
Proof.
  intros Hz Hstash. destruct a as [r c | | | w]; cbn [act].
  - cbn. rewrite (Hstash r c eq_refl). auto.
  - cbn. auto.
  - destruct (at_pc m); cbn; auto.
    destruct (loop_guard (ctx m)); cbn [fst snd ctx loc]; auto.
    rewrite outputs_teardown. auto.
  - destruct (at_pc m); cbn [fst snd]; auto.
    destruct (zero_fix_pass mask (ctx m) (loc m) w Hz) as (Hl & Hpt & Hq).
    destruct (after_pass_state (iteration mask (ctx m) (loc m) w)) as [Hc' Hl'].
    rewrite after_pass_outputs, Hc', Hl', Hl, Hpt, Hq. auto.
Qed.

(** C8, as stated, fails for the log hook: a pass with a zero second in
    the fix calls it before the test, to say that the wait succeeded. *)
Lemma zero_fix_pass_calls_log_hook :
  tv_sec (fixin_real (fresh_thread "/dev/ttyS0")) = 0
  /\ existsb is_hook_call
       (events_of (iteration linux_lines (fresh_thread "/dev/ttyS0")
                     init_locals (seen_at 1000 500000000 64))) = true.
Proof. split; reflexivity. Qed.

(** A wake-up with a zero second in the copied fix, pass by pass: the
    locals and the context stay as they are, and the pass does one thing,
    a call of the log hook.  Either both reads succeed and the pass ends
    at the [continue] of line 444, or one of them fails and the pass
    leaves the loop. *)
Lemma zero_fix_wakeup (mask : Z) (pt : pps_thread_t) (l : locals)
  (w : wakeup) :
  miwait_ok w = true ->
  tv_sec (fixin_real pt) = 0 ->
  locals_of (iteration mask pt l w) = l
  /\ thread_of (iteration mask pt l w) = pt
  /\ (((exists clock_ts state, now w = Some clock_ts /\ mget w = Some state)
       /\ flow_of (iteration mask pt l w) = Next
       /\ events_of (iteration mask pt l w)
          = [Log THREAD_PROG "PPS ioctl(TIOCMIWAIT) on %s succeeded"
               (devicename pt)])
      \/ ((now w = None \/ mget w = None)
          /\ flow_of (iteration mask pt l w) = Break
          /\ exists fmt arg,
               events_of (iteration mask pt l w)
               = [Log THREAD_ERROR fmt arg])).
Proof.
  intros Hw Hz. unfold iteration. rewrite Hw. cbn [negb].
  destruct (now w) as [clock_ts |].
  - destruct (mget w) as [state |].
    + rewrite Hz. cbn [Z.eqb locals_of thread_of flow_of events_of].
      split; [ reflexivity | ]. split; [ reflexivity | ].
      left. split; [ exists clock_ts, state; auto | auto ].
    + cbn [locals_of thread_of flow_of events_of].
      split; [ reflexivity | ]. split; [ reflexivity | ].
      right. split; [ auto | ]. split; [ reflexivity | eauto ].
  - cbn [locals_of thread_of flow_of events_of].
    split; [ reflexivity | ]. split; [ reflexivity | ].
    right. split; [ auto | ]. split; [ reflexivity | eauto ].
Qed.

(** The lines after the loop call the wrap hook exactly when it is set. *)
Lemma teardown_calls_wrap (pt : pps_thread_t) :
  In Wrap (teardown pt) <-> wrap_hook pt = true.
Proof.
  unfold teardown.
  destruct (kernelpps_handle pt >? 0); destruct (wrap_hook pt);
    cbn [app In]; split; intros H; try discriminate; auto;
    intuition discriminate.
Qed.

(** C8, amended: in every wake-up (the wait of line 375 has returned 0,
    so the fix is copied) whose copied fix has [tv_sec = 0], no
    classification runs, the report and publish hooks are not called, and
    the locals ([pulse], [state_last] among them) and the context
    ([ppsout_last], [ppsout_count]) stay as they are.  When
    [clock_gettime] and [ioctl(TIOCMGET)] succeed, the pass is abandoned
    before the edge is computed; its one effect is a call of the log hook
    (level PROG, "ioctl(TIOCMIWAIT) succeeded") and the wrap hook is not
    called.  When one of the two fails, the pass logs the failure at level
    ERROR and leaves the loop, and the lines after the loop call the wrap
    hook if it is set.  Hence a run that starts without a fix and in
    which every stashed fix has a zero second publishes nothing. *)
Theorem zero_fix_pass_abandoned :
  (forall (mask : Z) (pt : pps_thread_t) (l : locals) (w : wakeup),
      miwait_ok w = true ->
      tv_sec (fixin_real pt) = 0 ->
      locals_of (iteration mask pt l w) = l
      /\ thread_of (iteration mask pt l w) = pt
      /\ (((exists clock_ts state,
              now w = Some clock_ts /\ mget w = Some state)
           /\ flow_of (iteration mask pt l w) = Next
           /\ events_of (iteration mask pt l w)
              = [Log THREAD_PROG "PPS ioctl(TIOCMIWAIT) on %s succeeded"
                   (devicename pt)])
          \/ ((now w = None \/ mget w = None)
              /\ flow_of (iteration mask pt l w) = Break
              /\ exists fmt arg,
                   events_of (iteration mask pt l w)
                   = [Log THREAD_ERROR fmt arg])))
  /\ (forall (mask : Z) (m : worker) (w : wakeup),
         at_pc m = Waiting ->
         miwait_ok w = true ->
         tv_sec (fixin_real (ctx m)) = 0 ->
         ctx (fst (act mask m (Wakeup w))) = ctx m
         /\ loc (fst (act mask m (Wakeup w))) = loc m
         /\ outputs (snd (act mask m (Wakeup w))) = []
         /\ (at_pc (fst (act mask m (Wakeup w))) = Returned
             <-> now w = None \/ mget w = None)
         /\ (In Wrap (snd (act mask m (Wakeup w)))
             <-> wrap_hook (ctx m) = true
                 /\ (now w = None \/ mget w = None)))
  /\ (forall (mask : Z) (m : worker) (acts : list action),
         tv_sec (fixin_real (ctx m)) = 0 ->
         (forall r c, In (Stash r c) acts -> tv_sec r = 0) ->
         loc (fst (run mask m acts)) = loc m
         /\ ppsout_last (ctx (fst (run mask m acts))) = ppsout_last (ctx m)
         /\ ppsout_count (ctx (fst (run mask m acts))) = ppsout_count (ctx m)
         /\ outputs (snd (run mask m acts)) = []).
Proof.
  split; [ | split ].
  - intros mask pt l w. apply zero_fix_wakeup.
  - intros mask m w Hpc Hw Hz. cbn [act]. rewrite Hpc. unfold after_pass.
    destruct (zero_fix_wakeup mask (ctx m) (loc m) w Hw Hz)
      as (Hl & Hpt & [((ct & st & Hn & Hg) & Hf & He)
                     | (Hfail & Hf & (fmt & arg & He))]);
      rewrite Hf; cbn [fst snd ctx loc at_pc]; rewrite ?Hl, ?Hpt, He.
    + split; [ reflexivity | ]. split; [ reflexivity | ].
      split; [ reflexivity | ]. split.
      * split; [ discriminate | ].
        rewrite Hn, Hg. intros [H | H]; discriminate.
      * split; [ intros [H | []]; discriminate | ].
        rewrite Hn, Hg. intros (_ & [H | H]); discriminate.
    + split; [ reflexivity | ]. split; [ reflexivity | ].
      split; [ rewrite outputs_app, outputs_teardown; reflexivity | ].
      split; [ tauto | ].
      cbn [app In]. rewrite teardown_calls_wrap. split.
      * intros [H | H]; [ discriminate | auto ].
      * intros [H _]. auto.
  - intros mask m acts. revert m.
    induction acts as [| a rest IH]; intros m Hz Hstash.
    + cbn. auto.
    + rewrite run_cons. cbn [fst snd].
      destruct (zero_fix_act mask m a Hz) as (Hz1 & Hl & Hp & Hc & Hq).
      { intros r c ->. apply (Hstash r c). left. reflexivity. }
      destruct (IH (fst (act mask m a)) Hz1) as (Hl2 & Hp2 & Hc2 & Hq2).
      { intros r c Hin. apply (Hstash r c). right. assumption. }
      rewrite outputs_app, Hq, Hq2, Hl2, Hp2, Hc2. auto.
Qed.

Lemma zero_fix_pass_abandoned_witness :
  miwait_ok {| miwait_ok := true;
               now := Some {| tv_sec := 1000; tv_nsec := 500000000 |};
               mget := None; fetch := None |} = true
  /\ tv_sec (fixin_real (fresh_thread "/dev/ttyS0")) = 0
  /\ locals_of (iteration linux_lines (fresh_thread "/dev/ttyS0")
                  tracking_locals
                  {| miwait_ok := true;
                     now := Some {| tv_sec := 1000; tv_nsec := 500000000 |};
                     mget := None; fetch := None |})
     = tracking_locals
  /\ locals_of (iteration linux_lines (fresh_thread "/dev/ttyS0")
                  tracking_locals (seen_at 1000 500000000 64))
     = tracking_locals.
Proof.
  split; [ reflexivity | ].
  split; [ reflexivity | ].
  split.
  - exact (proj1 (proj1 zero_fix_pass_abandoned linux_lines
                    (fresh_thread "/dev/ttyS0") tracking_locals
                    {| miwait_ok := true;
                       now := Some {| tv_sec := 1000;
                                      tv_nsec := 500000000 |};
                       mget := None; fetch := None |} eq_refl eq_refl)).
  - exact (proj1 (proj1 zero_fix_pass_abandoned linux_lines
                    (fresh_thread "/dev/ttyS0") tracking_locals
                    (seen_at 1000 500000000 64) eq_refl eq_refl)).
Defined.

(** ** Passes that see the lines unchanged *)

(** [unchanged] counts from 0 to 9. *)
Lemma iteration_unchanged_range (mask : Z) (pt : pps_thread_t) (l : locals)
  (w : wakeup) :
  0 <= unchanged l <= 9 ->
  0 <= unchanged (locals_of (iteration mask pt l w)) <= 9.
Proof.
  intros Hr. unfold iteration.
  destruct (miwait_ok w); cbn [negb]; [ | assumption ].
  destruct (now w) as [clock_ts |]; [ | assumption ].
  destruct (mget w) as [state |]; [ | assumption ].
  destruct (tv_sec (fixin_real pt) =? 0); [ assumption | ].
  destruct (kpps_check (kernelpps_handle pt) l w) as [[pk kpps] evk].
  match goal with
  | |- context [stuck_state ?a ?b ?c ?d ?e ?f] =>
      assert (Hu : 0 <= snd (fst (stuck_state a b c d e f)) <= 9);
      [ unfold stuck_state;
        destruct (b =? c);
        [ destruct ((999000 <? d) && (1001000 >? d));
          [ cbn; lia | destruct (Z.eqb_spec (f + 1) 10); cbn; lia ]
        | cbn; lia ]
      | destruct (stuck_state a b c d e f) as [[dur un] evs] ]
  end.
  cbn [fst snd] in Hu.
  destruct (un =? 0); cbn [negb]; [ | assumption ].
  match goal with
  | |- context [dedup ?a ?b ?c] => destruct (dedup a b c) as [ok log]
  end.
  destruct ok; [ | assumption ].
  match goal with
  | |- context [accepted ?a ?b ?c ?d ?e ?f ?g] =>
      pose proof (accepted_result a b c d e f g) as Ha;
      destruct (accepted a b c d e f g) as [[l2 pt2] ev2]
  end.
  cbn [fst snd] in Ha. cbn zeta in Ha. cbn [locals_of].
  destruct Ha as [[Ha _] | (c & _ & _ & Hun & _)].
  - inversion Ha; subst. assumption.
  - rewrite Hun. assumption.
Qed.

Lemma act_unchanged_range (mask : Z) (m : worker) (a : action) :
  0 <= unchanged (loc m) <= 9 ->
  0 <= unchanged (loc (fst (act mask m a))) <= 9.
Proof.
  intros Hr. destruct a as [r c | | | w]; cbn [act]; try assumption.
  - destruct (at_pc m); try assumption.
    destruct (loop_guard (ctx m)); assumption.
  - destruct (at_pc m); try assumption.
    rewrite (proj2 (after_pass_state _)).
    apply iteration_unchanged_range. assumption.
Qed.

Lemma run_unchanged_range (mask : Z) (acts : list action) :
  forall m : worker,
    0 <= unchanged (loc m) <= 9 ->
    0 <= unchanged (loc (fst (run mask m acts))) <= 9.
Proof.
  induction acts as [| a rest IH]; intros m Hr; [ assumption | ].
  rewrite run_cons. cbn [fst]. apply IH. apply act_unchanged_range.
  assumption.
Qed.

Lemma kpps_check_no_verdict (handle : Z) (l : locals) (w : wakeup)
  (fmt arg : string) :
  ~ In (Log THREAD_RAW fmt arg) (snd (kpps_check handle l w)).
Proof.
  unfold kpps_check.
  destruct (0 <=? handle); [ | intros [] ].
  destruct (fetch w) as [pi |].
  - destruct (newer_edge pi) as [e ts]. cbn [snd In].
    intuition discriminate.
  - cbn [snd In]. intuition discriminate.
Qed.

(** The pass of lines 543-574 for a state that did not change and a
    cycle outside the window of the invisible pulse, from any locals with
    a counter other than -1. *)
Lemma stuck_pass (mask : Z) (pt : pps_thread_t) (l : locals) (w : wakeup)
  (clock_ts : timespec) (state : Z) :
  edge_seen w clock_ts state ->
  tv_sec (fixin_real pt) <> 0 ->
  Z.land state mask = state_last l ->
  ~ (999000 < diff_us clock_ts (at_edge (pulse l) 0) < 1001000) ->
  unchanged l <> -1 ->
  iteration mask pt l w
  = mk_pass Next
      (mk_locals (last_second_used l)
         (if unchanged l + 1 =? 10 then 1 else unchanged l + 1)
         (Z.land state mask)
         (set_edge (pulse l) 0 clock_ts)
         (fst (fst (kpps_check (kernelpps_handle pt) l w))))
      pt
      (Log THREAD_PROG "PPS ioctl(TIOCMIWAIT) on %s succeeded" (devicename pt)
         :: snd (kpps_check (kernelpps_handle pt) l w)
         ++ (if unchanged l + 1 =? 10
             then [Log THREAD_WARN
                     "PPS TIOCMIWAIT returns unchanged state, ppsmonitor sleeps 10"
                     no_arg;
                   Sleep 10]
             else [])
         ++ [Log THREAD_PROG
               "PPS edge: %d, cycle: %7d uSec, duration: %7d uSec @ %s" no_arg]).
Proof.
  intros (Hw & Hn & Hg) Hfix Hst Hcy Hun.
  unfold iteration. rewrite Hw, Hn, Hg. cbn [negb].
  destruct (Z.eqb_spec (tv_sec (fixin_real pt)) 0) as [E | _];
    [ contradiction | ].
  rewrite Hst, Z.gtb_ltb, Z.ltb_irrefl.
  destruct (kpps_check (kernelpps_handle pt) l w) as [[pk kpps] evk].
  cbn [fst snd].
  unfold stuck_state. rewrite Z.eqb_refl.
  assert (Hwin : (999000 <? diff_us clock_ts (at_edge (pulse l) 0))
                 && (1001000 >? diff_us clock_ts (at_edge (pulse l) 0))
                 = false).
  { rewrite Z.gtb_ltb.
    destruct (Z.ltb_spec 999000 (diff_us clock_ts (at_edge (pulse l) 0)));
      destruct (Z.ltb_spec (diff_us clock_ts (at_edge (pulse l) 0)) 1001000);
      cbn [andb]; try reflexivity.
    elim Hcy. lia. }
  rewrite Hwin.
  destruct (Z.eqb_spec (unchanged l + 1) 10) as [E10 | N10].
  - reflexivity.
  - destruct (Z.eqb_spec (unchanged l + 1) 0) as [E0 | _]; [ lia | ].
    reflexivity.
Qed.

(** C9: in every state the worker can reach, a pass that reads the
    lines as they were ([state == state_last]) with a cycle outside
    (999000, 1001000) microseconds is skipped, whatever the
    counter [unchanged] holds: the pass goes on to the next wait, the
    context ([ppsout_last], [ppsout_count]) and [last_second_used] are
    unchanged, nothing is handed to the report and publish hooks, no edge
    is accepted or rejected (nothing is logged at level RAW, where both
    verdicts go); [pulse[edge]] is set to the clock reading and
    [state_last] to the state read, and the counter ends between 1 and
    9. *)
Theorem stuck_state_pass_skipped (mask : Z) (pt0 : pps_thread_t)
  (acts : list action) (w : wakeup) (clock_ts : timespec) (state : Z) :
  let m := fst (run mask (gpsd_ppsmonitor pt0) acts) in
  let edge := if Z.land state mask >? state_last (loc m) then 1 else 0 in
  edge_seen w clock_ts state ->
  tv_sec (fixin_real (ctx m)) <> 0 ->
  Z.land state mask = state_last (loc m) ->
  ~ (999000 < diff_us clock_ts (at_edge (pulse (loc m)) edge) < 1001000) ->
  let p := iteration mask (ctx m) (loc m) w in
  flow_of p = Next
  /\ thread_of p = ctx m
  /\ last_second_used (locals_of p) = last_second_used (loc m)
  /\ outputs (events_of p) = []
  /\ (forall fmt arg, ~ In (Log THREAD_RAW fmt arg) (events_of p))
  /\ at_edge (pulse (locals_of p)) edge = clock_ts
  /\ state_last (locals_of p) = Z.land state mask
  /\ 1 <= unchanged (locals_of p) <= 9.
Proof.
  intros m edge Hw Hfix Hst Hcy p.
  assert (Hedge : edge = 0).
  { subst edge. rewrite Hst, Z.gtb_ltb, Z.ltb_irrefl. reflexivity. }
  rewrite Hedge in *. clear Hedge edge.
  assert (Hr : 0 <= unchanged (loc m) <= 9).
  { apply run_unchanged_range. cbn. lia. }
  assert (Hp : p = _) by (apply (stuck_pass mask (ctx m) (loc m) w clock_ts
                                   state Hw Hfix Hst Hcy); lia).
  rewrite Hp. cbn [flow_of thread_of locals_of events_of last_second_used
                   pulse state_last unchanged].
  repeat split.
  - match goal with
    | |- outputs (?e :: ?r) = _ => change (e :: r) with ([e] ++ r)
    end.
    rewrite !outputs_app, kpps_check_quiet.
    destruct (unchanged (loc m) + 1 =? 10); reflexivity.
  - intros fmt arg [Hin | Hin]; [ discriminate | ].
    apply in_app_or in Hin. destruct Hin as [Hin | Hin].
    + exact (kpps_check_no_verdict _ _ _ _ _ Hin).
    + apply in_app_or in Hin. destruct Hin as [Hin | [Hin | []]];
        [ | discriminate ].
      destruct (unchanged (loc m) + 1 =? 10); cbn [In] in Hin;
        intuition discriminate.
  - destruct (Z.eqb_spec (unchanged (loc m) + 1) 10); lia.
  - destruct (Z.eqb_spec (unchanged (loc m) + 1) 10); lia.
Qed.

Lemma stuck_state_pass_skipped_witness :
  let m := fst (run linux_lines (gpsd_ppsmonitor tracking_thread)
                  [Guard; edge_at 1001 500000000 64]) in
  let p := iteration linux_lines (ctx m) (loc m) (seen_at 1001 700000000 64) in
  Z.land 64 linux_lines = state_last (loc m)
  /\ thread_of p = ctx m
  /\ outputs (events_of p) = []
  /\ 1 <= unchanged (locals_of p) <= 9.
Proof.
  intros m p.
  assert (Hst : Z.land 64 linux_lines = state_last (loc m)) by reflexivity.
  split; [ exact Hst | ].
  assert (Hw : edge_seen (seen_at 1001 700000000 64)
                 {| tv_sec := 1001; tv_nsec := 700000000 |} 64).
  { repeat split; reflexivity. }
  assert (Hfix : tv_sec (fixin_real (ctx m)) <> 0).
  { vm_compute. discriminate. }
  assert (Hcy : ~ (999000
                   < diff_us {| tv_sec := 1001; tv_nsec := 700000000 |}
                       (at_edge (pulse (loc m))
                          (if Z.land 64 linux_lines >? state_last (loc m)
                           then 1 else 0))
                   < 1001000)).
  { intros [_ Hlt]. vm_compute in Hlt. discriminate. }
  pose proof (stuck_state_pass_skipped linux_lines tracking_thread
                [Guard; edge_at 1001 500000000 64]
                (seen_at 1001 700000000 64) _ 64 Hw Hfix Hst Hcy) as H.
  cbv zeta in H.
  exact (conj (proj1 (proj2 H))
           (conj (proj1 (proj2 (proj2 (proj2 H))))
              (proj2 (proj2 (proj2 (proj2 (proj2 (proj2 (proj2 H))))))))).
Defined.

(** ** The classifier *)

(** C6: with a cycle of 1000000 and a duration of 500000 microseconds
    the classifier accepts the edge if and only if it is the assert edge
    ([edge = 1]); the clear edge ([edge = 0]) is rejected. *)
Theorem square_wave_accepts_assert_only (edge : Z) :
  (fst (classify 1000000 500000 edge) = true <-> edge = 1)
  /\ classify 1000000 500000 1 = (true, "square")
  /\ fst (classify 1000000 500000 0) = false.
Proof.
  split; [ | split; reflexivity ].
  unfold classify.
  change (0 >? 1000000) with false. change (199000 >? 1000000) with false.
  change (201000 >? 1000000) with false. change (900000 >? 1000000) with false.
  change (1100000 >? 1000000) with true. change (0 =? 500000) with false.
  change (499000 >? 500000) with false. change (501000 >? 500000) with true.
  cbv iota.
  destruct (Z.eqb_spec edge 1); cbn [fst]; split; congruence.
Qed.

(** The windows of the table for the 1 Hz pulse: a cycle in
    [900000, 1100000) is accepted for an invisible pulse, for a square
    wave on the assert edge, and for a leading edge. *)
Lemma classify_one_hertz (cycle duration edge : Z) :
  900000 <= cycle < 1100000 ->
  fst (classify cycle duration edge)
  = (duration =? 0)
    || (negb (duration <? 499000)
        && ((501000 <=? duration) || (edge =? 1))).
Proof.
  intros Hc. unfold classify. rewrite !Z.gtb_ltb.
  destruct (Z.ltb_spec cycle 0); [ lia | ].
  destruct (Z.ltb_spec cycle 199000); [ lia | ].
  destruct (Z.ltb_spec cycle 201000); [ lia | ].
  destruct (Z.ltb_spec cycle 900000); [ lia | ].
  destruct (Z.ltb_spec cycle 1100000); [ | lia ].
  rewrite (Z.eqb_sym 0 duration).
  destruct (Z.eqb_spec duration 0); [ reflexivity | ].
  destruct (Z.ltb_spec duration 499000); [ reflexivity | ].
  destruct (Z.ltb_spec duration 501000);
    destruct (Z.leb_spec 501000 duration); try lia; cbn [negb andb orb].
  - destruct (edge =? 1); reflexivity.
  - reflexivity.
Qed.

(** ** The age of the fix *)

(** What lines 727-728 test: a delay is refused as out of range when it
    has three seconds or more, or one second and less than a tenth. *)
Lemma delay_verdict_out_of_range (delay : timespec) :
  delay_verdict delay = Some "timestamp out of range"
  <-> 0 <= tv_sec delay /\ 0 <= tv_nsec delay
      /\ (3 <= tv_sec delay \/ (tv_sec delay = 1 /\ tv_nsec delay < 100000000)).
Proof.
  unfold delay_verdict. destruct delay as [s n]. cbn [tv_sec tv_nsec].
  z_tests; split; try lia; try discriminate; try reflexivity.
Qed.

(** The delay of the third edge of [stale_fix_scenario]. *)
Lemma stale_fix_delay :
  TS_SUB {| tv_sec := 1002; tv_nsec := 500000000 |}
         {| tv_sec := 1000; tv_nsec := 0 |}
  = {| tv_sec := 2; tv_nsec := 500000000 |}.
Proof. reflexivity. Qed.

(** C1: the code departs from the claim.  A delay of 1.1 s exactly is
    let through, a delay of 1.099999999 s is refused as "timestamp out of
    range", and the edge that comes 2.5 s after the only fix is published:
    the counter goes from 0 to 1. *)
Theorem delay_window_off :
  delay_verdict {| tv_sec := 1; tv_nsec := 100000000 |} = None
  /\ delay_verdict {| tv_sec := 1; tv_nsec := 99999999 |}
     = Some "timestamp out of range"
  /\ delay_verdict {| tv_sec := 2; tv_nsec := 500000000 |} = None
  /\ ppsout_count
       (ctx (fst (run linux_lines (gpsd_ppsmonitor (fresh_thread "/dev/ttyS0"))
                    stale_fix_scenario))) = 1
  /\ publications
       (snd (run linux_lines (gpsd_ppsmonitor (fresh_thread "/dev/ttyS0"))
               stale_fix_scenario))
     = [ {| real := {| tv_sec := 1700000001; tv_nsec := 0 |};
            clock := {| tv_sec := 1002; tv_nsec := 500000000 |} |} ].
Proof. repeat split. Qed.

(** * Further properties *)

(** ** Timespec arithmetic, continued *)

(** Two normalised timespecs for the same instant are the same. *)
Lemma normalized_unique (x y : timespec) :
  normalized x -> normalized y -> nanoseconds x = nanoseconds y -> x = y.
Proof.
  destruct x as [s n], y as [s' n'].
  unfold normalized, sign_rules, nanoseconds; cbn [tv_sec tv_nsec].
  intros [[Hp Hm] Hn] [[Hp' Hm'] Hn'] E.
  assert (s = s') by lia. subst s'. f_equal. lia.
Qed.

Lemma opposite_normalized (x : timespec) : normalized x -> normalized (opposite x).
Proof.
  destruct x as [s n].
  unfold normalized, sign_rules, opposite; cbn [tv_sec tv_nsec].
  intros [[Hp Hm] Hn]. repeat split; lia.
Qed.

Lemma TS_NORM_nanoseconds (ts : timespec) :
  nanoseconds (TS_NORM ts) = nanoseconds ts.
Proof.
  destruct (TS_NORM_cases ts) as [E | [E | E]]; rewrite E;
    unfold nanoseconds; cbn [tv_sec tv_nsec]; lia.
Qed.

(** X1: [TS_NORM] never changes the instant: whatever the input, the result
    stands for the same number of nanoseconds, and its seconds differ
    from the input's by one at most. *)
Theorem TS_NORM_keeps_instant (ts : timespec) :
  nanoseconds (TS_NORM ts) = nanoseconds ts
  /\ -1 <= tv_sec (TS_NORM ts) - tv_sec ts <= 1.
Proof.
  split; [ apply TS_NORM_nanoseconds | ].
  destruct (TS_NORM_cases ts) as [E | [E | E]]; rewrite E;
    cbn [tv_sec]; lia.
Qed.

(** X2: [TS_SUB] is exact on normalised operands: the result is normalised
    and stands for the difference of the two instants. *)
Theorem TS_SUB_exact (a b : timespec) :
  normalized a -> normalized b ->
  normalized (TS_SUB a b)
  /\ nanoseconds (TS_SUB a b) = nanoseconds a - nanoseconds b.
Proof.
  intros Ha Hb. split; [ apply TS_SUB_normalized; assumption | ].
  unfold TS_SUB. rewrite TS_NORM_nanoseconds.
  unfold nanoseconds; cbn [tv_sec tv_nsec]. lia.
Qed.

Lemma TS_SUB_exact_witness :
  normalized {| tv_sec := 1002; tv_nsec := 100000000 |}
  /\ normalized {| tv_sec := 1000; tv_nsec := 900000000 |}
  /\ nanoseconds (TS_SUB {| tv_sec := 1002; tv_nsec := 100000000 |}
                         {| tv_sec := 1000; tv_nsec := 900000000 |})
     = nanoseconds {| tv_sec := 1002; tv_nsec := 100000000 |}
       - nanoseconds {| tv_sec := 1000; tv_nsec := 900000000 |}.
Proof.
  assert (Ha : normalized {| tv_sec := 1002; tv_nsec := 100000000 |}).
  { unfold normalized, sign_rules; cbn [tv_sec tv_nsec]. lia. }
  assert (Hb : normalized {| tv_sec := 1000; tv_nsec := 900000000 |}).
  { unfold normalized, sign_rules; cbn [tv_sec tv_nsec]. lia. }
  split; [ exact Ha | ]. split; [ exact Hb | ].
  exact (proj2 (TS_SUB_exact _ _ Ha Hb)).
Defined.

(** X3: Swapping the operands of [TS_SUB] negates both fields of the result,
    for normalised operands. *)
Theorem TS_SUB_swap (a b : timespec) :
  normalized a -> normalized b ->
  TS_SUB b a = opposite (TS_SUB a b).
Proof.
  intros Ha Hb. apply normalized_unique.
  - apply TS_SUB_normalized; assumption.
  - apply opposite_normalized. apply TS_SUB_normalized; assumption.
  - unfold TS_SUB. rewrite TS_NORM_nanoseconds.
    unfold opposite, nanoseconds at 2; cbn [tv_sec tv_nsec].
    pose proof (TS_NORM_nanoseconds
                  {| tv_sec := tv_sec a - tv_sec b;
                     tv_nsec := tv_nsec a - tv_nsec b |}) as E.
    unfold nanoseconds in E at 1.
    unfold nanoseconds in *; cbn [tv_sec tv_nsec] in *. lia.
Qed.

Lemma TS_SUB_swap_witness :
  normalized {| tv_sec := 1002; tv_nsec := 100000000 |}
  /\ normalized {| tv_sec := 1000; tv_nsec := 900000000 |}
  /\ TS_SUB {| tv_sec := 1000; tv_nsec := 900000000 |}
            {| tv_sec := 1002; tv_nsec := 100000000 |}
     = opposite (TS_SUB {| tv_sec := 1002; tv_nsec := 100000000 |}
                        {| tv_sec := 1000; tv_nsec := 900000000 |}).
Proof.
  assert (Ha : normalized {| tv_sec := 1002; tv_nsec := 100000000 |}).
  { unfold normalized, sign_rules; cbn [tv_sec tv_nsec]. lia. }
  assert (Hb : normalized {| tv_sec := 1000; tv_nsec := 900000000 |}).
  { unfold normalized, sign_rules; cbn [tv_sec tv_nsec]. lia. }
  split; [ exact Ha | ]. split; [ exact Hb | ].
  exact (TS_SUB_swap _ _ Ha Hb).
Defined.

(** X4: The test of line 722 is exact: for normalised clock readings, the
    verdict is "system clock went backwards" if and only if the edge was
    stamped before the fix. *)
Theorem backwards_iff_earlier (clock_ts fix_clock : timespec) :
  normalized clock_ts -> normalized fix_clock ->
  (delay_verdict (TS_SUB clock_ts fix_clock)
   = Some "system clock went backwards"
   <-> nanoseconds clock_ts < nanoseconds fix_clock).
Proof.
  intros Hc Hf.
  pose proof (TS_SUB_normalized _ _ Hc Hf) as Hd.
  assert (En : nanoseconds (TS_SUB clock_ts fix_clock)
               = nanoseconds clock_ts - nanoseconds fix_clock).
  { unfold TS_SUB. rewrite TS_NORM_nanoseconds.
    unfold nanoseconds; cbn [tv_sec tv_nsec]. lia. }
  destruct (TS_SUB clock_ts fix_clock) as [s n].
  unfold normalized, sign_rules in Hd. unfold nanoseconds in En at 1.
  cbn [tv_sec tv_nsec] in *. destruct Hd as [[Hp Hm] Hn].
  unfold delay_verdict; cbn [tv_sec tv_nsec].
  z_tests; split; intros H'; try discriminate; try reflexivity; lia.
Qed.

Lemma backwards_iff_earlier_witness :
  normalized {| tv_sec := 999; tv_nsec := 999999999 |}
  /\ normalized {| tv_sec := 1000; tv_nsec := 0 |}
  /\ (delay_verdict (TS_SUB {| tv_sec := 999; tv_nsec := 999999999 |}
                            {| tv_sec := 1000; tv_nsec := 0 |})
      = Some "system clock went backwards"
      <-> nanoseconds {| tv_sec := 999; tv_nsec := 999999999 |}
          < nanoseconds {| tv_sec := 1000; tv_nsec := 0 |}).
Proof.
  assert (Ha : normalized {| tv_sec := 999; tv_nsec := 999999999 |}).
  { unfold normalized, sign_rules; cbn [tv_sec tv_nsec]. lia. }
  assert (Hb : normalized {| tv_sec := 1000; tv_nsec := 0 |}).
  { unfold normalized, sign_rules; cbn [tv_sec tv_nsec]. lia. }
  split; [ exact Ha | ]. split; [ exact Hb | ].
  exact (backwards_iff_earlier _ _ Ha Hb).
Defined.

(** ** The classifier, continued *)

(** X5: What lines 601-658 accept, all of it: an edge passes the classifier
    if and only if its cycle and duration (microseconds) fall in one of
    three windows: 5 Hz, cycle in [199000, 201000) with a duration below
    100000; 1 Hz, cycle in [900000, 1100000) with a duration of 0, or of
    501000 and more, or in [499000, 501000) on the assert edge; 0.5 Hz,
    cycle in [1999000, 2001000) with a duration in [999000, 1001000).
    A negative cycle never passes. *)
Theorem classify_accepts_iff (cycle duration edge : Z) :
  fst (classify cycle duration edge) = true
  <-> (199000 <= cycle < 201000 /\ duration < 100000)
      \/ (900000 <= cycle < 1100000
          /\ (duration = 0
              \/ 501000 <= duration
              \/ (499000 <= duration < 501000 /\ edge = 1)))
      \/ (1999000 <= cycle < 2001000 /\ 999000 <= duration < 1001000).
Proof.
  unfold classify. rewrite !Z.gtb_ltb.
  destruct (Z.ltb_spec cycle 0); cbn [fst];
    [ split; [ discriminate | lia ] | ].
  destruct (Z.ltb_spec cycle 199000); cbn [fst];
    [ split; [ discriminate | lia ] | ].
  destruct (Z.ltb_spec cycle 201000).
  { destruct (Z.ltb_spec duration 100000); cbn [fst];
      split; try discriminate; try lia; auto. }
  destruct (Z.ltb_spec cycle 900000); cbn [fst];
    [ split; [ discriminate | lia ] | ].
  destruct (Z.ltb_spec cycle 1100000).
  { destruct (Z.eqb_spec 0 duration); cbn [fst];
      [ split; [ intros _; right; left; split; [ lia | left; lia ]
               | reflexivity ] | ].
    destruct (Z.ltb_spec duration 499000); cbn [fst];
      [ split; [ discriminate | lia ] | ].
    destruct (Z.ltb_spec duration 501000).
    - destruct (Z.eqb_spec edge 1); cbn [fst]; split; try discriminate;
        try reflexivity; lia.
    - cbn [fst]. split; [ | reflexivity ].
      intros _. right; left. split; [ lia | right; left; lia ]. }
  destruct (Z.ltb_spec cycle 1999000); cbn [fst];
    [ split; [ discriminate | lia ] | ].
  destruct (Z.ltb_spec cycle 2001000).
  { destruct (Z.ltb_spec duration 999000); cbn [fst];
      [ split; [ discriminate | lia ] | ].
    destruct (Z.ltb_spec duration 1001000); cbn [fst];
      split; try discriminate; try reflexivity; try lia. }
  cbn [fst]. split; [ discriminate | lia ].
Qed.

(** ** The kernel timestamps *)

(** X6: Lines 489-501 take the later of the assert and the clear timestamp,
    seconds first: the assert one, as edge 1, when it is strictly later,
    the clear one, as edge 0, otherwise (a tie goes to clear). *)
Theorem newer_edge_is_later (pi : pps_info_t) :
  (newer_edge pi = (1, assert_timestamp pi)
   /\ strictly_after (assert_timestamp pi) (clear_timestamp pi))
  \/ (newer_edge pi = (0, clear_timestamp pi)
      /\ not_before (clear_timestamp pi) (assert_timestamp pi)).
Proof.
  unfold newer_edge, strictly_after, not_before.
  rewrite !Z.gtb_ltb.
  destruct (Z.ltb_spec (tv_sec (clear_timestamp pi))
              (tv_sec (assert_timestamp pi))); [ left; split; [ reflexivity | lia ] | ].
  destruct (Z.ltb_spec (tv_sec (assert_timestamp pi))
              (tv_sec (clear_timestamp pi))); [ right; split; [ reflexivity | lia ] | ].
  destruct (Z.ltb_spec (tv_nsec (clear_timestamp pi))
              (tv_nsec (assert_timestamp pi)));
    [ left | right ]; (split; [ reflexivity | lia ]).
Qed.

(** ** When a pass publishes *)

Lemma accepted_outputs (pt : pps_thread_t) (l : locals)
  (fix_real fix_clock clock_ts : timespec) (log : string)
  (kpps : option (Z * pps_info_t)) :
  let c := fst (chosen_clock (kernelpps_handle pt) kpps clock_ts) in
  let td := {| real := top_of_second fix_real; clock := c |} in
  let r := accepted pt l fix_real fix_clock clock_ts log kpps in
  (delay_verdict (TS_SUB c fix_clock) <> None
   /\ r = (l, pt, snd r) /\ outputs (snd r) = [])
  \/ (delay_verdict (TS_SUB c fix_clock) = None
      /\ fst r = (mk_locals (tv_sec fix_real) (unchanged l) (state_last l)
                    (pulse l) (pulse_kpps l),
                  set_ppsout pt td (ppsout_count pt + 1))
      /\ outputs (snd r) = publication_of pt td).
Proof.
  unfold accepted.
  pose proof (chosen_clock_quiet (kernelpps_handle pt) kpps clock_ts) as Hq.
  destruct (chosen_clock (kernelpps_handle pt) kpps clock_ts) as [c evk].
  cbn [fst snd] in *. cbn [clock].
  destruct (delay_verdict (TS_SUB c fix_clock)) eqn:Hd; cbn zeta.
  - left. cbn [fst snd]. split; [ discriminate | ].
    split; [ reflexivity | ].
    change (Log THREAD_RAW "PPS edge accepted %.100s" log :: evk)
      with ([Log THREAD_RAW "PPS edge accepted %.100s" log] ++ evk).
    rewrite !outputs_app, Hq. reflexivity.
  - right. cbn [fst snd]. split; [ reflexivity | ].
    split; [ reflexivity | ].
    change (Log THREAD_RAW "PPS edge accepted %.100s" log :: evk)
      with ([Log THREAD_RAW "PPS edge accepted %.100s" log] ++ evk).
    rewrite !outputs_app, Hq. unfold publication_of.
    destruct (report_hook pt); destruct (pps_hook pt); reflexivity.
Qed.

(** A pass whose system calls succeed publishes exactly under
    [pass_goes_through], and then it publishes the top of the second
    after the fix with the clock instant [pass_clock]. *)
Lemma pass_outputs (mask : Z) (pt : pps_thread_t) (l : locals) (w : wakeup)
  (clock_ts : timespec) (state : Z) :
  edge_seen w clock_ts state ->
  let p := iteration mask pt l w in
  let td := {| real := top_of_second (fixin_real pt);
               clock := pass_clock pt l w clock_ts |} in
  (pass_goes_through mask pt l w clock_ts state
   /\ flow_of p = Next
   /\ thread_of p = set_ppsout pt td (ppsout_count pt + 1)
   /\ last_second_used (locals_of p) = tv_sec (fixin_real pt)
   /\ outputs (events_of p) = publication_of pt td)
  \/ (~ pass_goes_through mask pt l w clock_ts state
      /\ thread_of p = pt
      /\ last_second_used (locals_of p) = last_second_used l
      /\ outputs (events_of p) = []).
Proof.
  intros (Hw & Hn & Hg). unfold pass_goes_through, pass_stuck, pass_clock,
    pass_cycle, pass_duration, pass_edge, iteration.
  rewrite Hw, Hn, Hg. cbn [negb].
  destruct (Z.eqb_spec (tv_sec (fixin_real pt)) 0) as [E0 | N0].
  { right. cbn. intuition. }
  set (st := Z.land state mask).
  set (edge := if st >? state_last l then 1 else 0).
  pose proof (kpps_check_quiet (kernelpps_handle pt) l w) as Hk.
  destruct (kpps_check (kernelpps_handle pt) l w) as [[pk kpps] evk].
  cbn [fst snd] in *.
  set (cycle := diff_us clock_ts (at_edge (pulse l) edge)).
  set (duration := diff_us clock_ts (at_edge (pulse l) (other_edge edge))).
  pose proof (stuck_state_quiet (devicename pt) st (state_last l) cycle
                duration (unchanged l)) as Hs.
  destruct (stuck_state (devicename pt) st (state_last l) cycle duration
              (unchanged l)) as [[dur un] evs].
  cbn [fst snd] in *.
  set (ev1 := _ :: evk ++ evs ++ _).
  assert (H1 : outputs ev1 = []).
  { subst ev1.
    match goal with
    | |- outputs (?e :: ?r) = _ => change (e :: r) with ([e] ++ r)
    end.
    rewrite !outputs_app, Hk, Hs. reflexivity. }
  destruct (Z.eqb_spec un 0) as [Eu | Nu]; cbn [negb];
    [ | right; cbn [thread_of locals_of events_of last_second_used];
        intuition ].
  cbn [last_second_used].
  unfold dedup.
  destruct (classify cycle dur edge) as [ok lg]. cbn [fst].
  destruct ok; cbn [andb];
    [ | right; cbn [thread_of locals_of events_of last_second_used];
        rewrite outputs_app, H1; intuition discriminate ].
  rewrite Z.geb_leb.
  destruct (Z.leb_spec (tv_sec (fixin_real pt)) (last_second_used l));
    [ right; cbn [thread_of locals_of events_of last_second_used];
      rewrite outputs_app, H1; intuition lia | ].
  match goal with
  | |- context [accepted ?a ?b ?c ?d ?e ?f ?g] =>
      pose proof (accepted_outputs a b c d e f g) as Ha;
      destruct (accepted a b c d e f g) as [[l2 pt2] ev2]
  end.
  cbn [fst snd] in Ha. cbn zeta in Ha.
  cbn [thread_of locals_of events_of flow_of].
  destruct Ha as [(Hd & Ha & Hq) | (Hd & Ha & Ho)].
  - right. inversion Ha; subst. rewrite outputs_app, H1, Hq.
    cbn [last_second_used]. intuition.
  - left. inversion Ha; subst. rewrite outputs_app, H1, Ho.
    cbn [last_second_used]. intuition.
Qed.

(** Only a pass whose system calls succeed stores a pair. *)
Lemma stored_edge_seen (mask : Z) (pt : pps_thread_t) (l : locals)
  (w : wakeup) (td : timedelta_t) :
  In (Stored td) (events_of (iteration mask pt l w)) ->
  exists clock_ts state, edge_seen w clock_ts state.
Proof.
  unfold iteration, edge_seen.
  destruct (miwait_ok w); cbn [negb events_of];
    [ | intros [Hin | []]; discriminate ].
  destruct (now w) as [clock_ts |];
    [ | cbn [events_of]; intros [Hin | []]; discriminate ].
  destruct (mget w) as [state |];
    [ | cbn [events_of]; intros [Hin | []]; discriminate ].
  intros _. exists clock_ts, state. auto.
Qed.

Lemma newer_edge_cases (pi : pps_info_t) :
  newer_edge pi = (1, assert_timestamp pi)
  \/ newer_edge pi = (0, clear_timestamp pi).
Proof.
  unfold newer_edge.
  destruct (tv_sec (assert_timestamp pi) >? tv_sec (clear_timestamp pi));
    [ auto | ].
  destruct (tv_sec (assert_timestamp pi) <? tv_sec (clear_timestamp pi));
    [ auto | ].
  destruct (tv_nsec (assert_timestamp pi) >? tv_nsec (clear_timestamp pi));
    auto.
Qed.

(** [ok_kpps] is set only with a handle, after a fetch that succeeded,
    for the later of the two kernel timestamps and a kernel cycle inside
    (990000, 1010000). *)
Lemma kpps_check_ok (handle : Z) (l : locals) (w : wakeup) (e : Z)
  (pi : pps_info_t) :
  snd (fst (kpps_check handle l w)) = Some (e, pi) ->
  0 <= handle
  /\ fetch w = Some pi
  /\ e = fst (newer_edge pi)
  /\ 990000
     < diff_us (snd (newer_edge pi)) (at_edge (pulse_kpps l) (fst (newer_edge pi)))
     < 1010000.
Proof.
  unfold kpps_check.
  destruct (Z.leb_spec 0 handle); [ | discriminate ].
  destruct (fetch w) as [pi' |]; [ | discriminate ].
  destruct (newer_edge pi') as [e' ts] eqn:Hne. cbn [fst snd].
  rewrite Z.gtb_ltb.
  destruct (Z.ltb_spec 990000 (diff_us ts (at_edge (pulse_kpps l) e')));
    destruct (Z.ltb_spec (diff_us ts (at_edge (pulse_kpps l) e')) 1010000);
    cbn [andb]; try discriminate.
  intros E. inversion E; subst. rewrite Hne. cbn [fst snd].
  split; [ lia | split; [ reflexivity | split; [ reflexivity | lia ] ] ].
Qed.

(** X7: Where the published clock instant comes from.  The [clock] of every
    pair a pass stores is the reading of [clock_gettime] of that pass, or
    else there is a kernel PPS handle, [time_pps_fetch] succeeded, the
    kernel cycle lies inside (990000, 1010000) microseconds, and [clock]
    is the later of the two kernel timestamps.  Without a handle it is
    always the reading of [clock_gettime]. *)
Theorem published_clock_source (mask : Z) (pt : pps_thread_t) (l : locals)
  (w : wakeup) (td : timedelta_t) :
  In (Stored td) (events_of (iteration mask pt l w)) ->
  (kernelpps_handle pt < 0 -> now w = Some (clock td))
  /\ (now w = Some (clock td)
      \/ exists pi,
           0 <= kernelpps_handle pt
           /\ fetch w = Some pi
           /\ clock td = snd (newer_edge pi)
           /\ 990000
              < diff_us (snd (newer_edge pi))
                  (at_edge (pulse_kpps l) (fst (newer_edge pi)))
              < 1010000).
Proof.
  intros Hin.
  destruct (stored_edge_seen mask pt l w td Hin) as (clock_ts & state & Hw).
  apply stored_is_output in Hin.
  destruct (pass_outputs mask pt l w clock_ts state Hw)
    as [(_ & _ & _ & _ & Ho) | (_ & _ & _ & Hq)];
    [ | rewrite Hq in Hin; destruct Hin ].
  rewrite Ho in Hin. apply stored_in_publication in Hin. subst td.
  cbn [clock]. destruct Hw as (_ & Hn & _). rewrite Hn.
  unfold pass_clock, chosen_clock.
  destruct (snd (fst (kpps_check (kernelpps_handle pt) l w)))
    as [[e pi] |] eqn:Hk; [ | cbn [fst]; auto ].
  destruct (kpps_check_ok _ _ _ _ _ Hk) as (Hh & Hf & He & Hc).
  destruct (Z.leb_spec 0 (kernelpps_handle pt)); [ | lia ].
  cbn [fst]. split; [ lia | ].
  right. exists pi. repeat split; try assumption; try lia.
  subst e. destruct (newer_edge_cases pi) as [E | E]; rewrite E; reflexivity.
Qed.

Lemma published_clock_source_witness :
  In (Stored {| real := {| tv_sec := 1700000001; tv_nsec := 0 |};
                clock := {| tv_sec := 1000; tv_nsec := 500000000 |} |})
     (events_of (iteration linux_lines tracking_thread tracking_locals
                   (seen_at 1000 500000000 64)))
  /\ now (seen_at 1000 500000000 64)
     = Some {| tv_sec := 1000; tv_nsec := 500000000 |}.
Proof.
  assert (Hin : In (Stored {| real := {| tv_sec := 1700000001; tv_nsec := 0 |};
                             clock := {| tv_sec := 1000;
                                         tv_nsec := 500000000 |} |})
                  (events_of (iteration linux_lines tracking_thread
                                tracking_locals (seen_at 1000 500000000 64)))).
  { vm_compute. do 6 right. left. reflexivity. }
  split; [ exact Hin | ].
  apply (proj1 (published_clock_source linux_lines tracking_thread
                  tracking_locals (seen_at 1000 500000000 64) _ Hin)).
  vm_compute. reflexivity.
Defined.



(** ** What every pass keeps track of *)

Lemma accepted_keeps_pulse (pt : pps_thread_t) (l : locals)
  (fix_real fix_clock clock_ts : timespec) (log : string)
  (kpps : option (Z * pps_info_t)) :
  let l' := fst (fst (accepted pt l fix_real fix_clock clock_ts log kpps)) in
  pulse l' = pulse l /\ state_last l' = state_last l
  /\ pulse_kpps l' = pulse_kpps l /\ unchanged l' = unchanged l.
Proof.
  cbn zeta.
  destruct (accepted_outputs pt l fix_real fix_clock clock_ts log kpps)
    as [(_ & E & _) | (_ & E & _)]; rewrite E; cbn; auto.
Qed.

(** X9: Lines 564-566 come before any decision.  Every pass that gets an
    edge and has a fix records the reading of [clock_gettime] as the last
    edge of its polarity, keeps the time of the other polarity and
    remembers the masked state, whether the edge is then skipped,
    rejected or published, and also when the kernel timestamp is the one
    handed out. *)
Theorem pass_records_edge (mask : Z) (pt : pps_thread_t) (l : locals)
  (w : wakeup) (clock_ts : timespec) (state : Z) :
  edge_seen w clock_ts state ->
  tv_sec (fixin_real pt) <> 0 ->
  let l' := locals_of (iteration mask pt l w) in
  at_edge (pulse l') (pass_edge mask l state) = clock_ts
  /\ at_edge (pulse l') (other_edge (pass_edge mask l state))
     = at_edge (pulse l) (other_edge (pass_edge mask l state))
  /\ state_last l' = Z.land state mask.
Proof.
  intros (Hw & Hn & Hg) Hfix.
  assert (Hset : forall p e, (e = 0 \/ e = 1) ->
             at_edge (set_edge p e clock_ts) e = clock_ts
             /\ at_edge (set_edge p e clock_ts) (other_edge e)
                = at_edge p (other_edge e)).
  { intros p e [-> | ->]; split; reflexivity. }
  assert (He : pass_edge mask l state = 0 \/ pass_edge mask l state = 1).
  { unfold pass_edge. destruct (Z.land state mask >? state_last l); auto. }
  cbn zeta. unfold iteration. rewrite Hw, Hn, Hg. cbn [negb].
  destruct (Z.eqb_spec (tv_sec (fixin_real pt)) 0); [ contradiction | ].
  change (if Z.land state mask >? state_last l then 1 else 0)
    with (pass_edge mask l state).
  destruct (kpps_check (kernelpps_handle pt) l w) as [[pk kpps] evk].
  match goal with
  | |- context [stuck_state ?a ?b ?c ?d ?e ?f] =>
      destruct (stuck_state a b c d e f) as [[dur un] evs]
  end.
  destruct (un =? 0); cbn [negb];
    [ | cbn [locals_of pulse state_last];
        destruct (Hset (pulse l) _ He); auto ].
  match goal with
  | |- context [dedup ?a ?b ?c] => destruct (dedup a b c) as [ok lg]
  end.
  destruct ok;
    [ | cbn [locals_of pulse state_last];
        destruct (Hset (pulse l) _ He); auto ].
  match goal with
  | |- context [accepted ?a ?b ?c ?d ?e ?f ?g] =>
      pose proof (accepted_keeps_pulse a b c d e f g) as Ha;
      destruct (accepted a b c d e f g) as [[l2 pt2] ev2]
  end.
  cbn [fst snd pulse state_last] in Ha. cbn zeta in Ha.
  destruct Ha as (Hp & Hs & _). cbn [locals_of]. rewrite Hp, Hs.
  destruct (Hset (pulse l) _ He); auto.
Qed.

Lemma pass_records_edge_witness :
  edge_seen (seen_at 1001 700000000 64)
    {| tv_sec := 1001; tv_nsec := 700000000 |} 64
  /\ at_edge (pulse (locals_of (iteration linux_lines tracking_thread
                                  tracking_locals
                                  (seen_at 1001 700000000 64))))
       (pass_edge linux_lines tracking_locals 64)
     = {| tv_sec := 1001; tv_nsec := 700000000 |}.
Proof.
  assert (Hw : edge_seen (seen_at 1001 700000000 64)
                 {| tv_sec := 1001; tv_nsec := 700000000 |} 64).
  { repeat split; reflexivity. }
  split; [ exact Hw | ].
  apply (pass_records_edge linux_lines tracking_thread tracking_locals
           (seen_at 1001 700000000 64) _ 64 Hw).
  vm_compute. discriminate.
Defined.

(** ** The ten-second pause *)

Lemma kpps_check_no_sleep (handle : Z) (l : locals) (w : wakeup) :
  filter is_sleep (snd (kpps_check handle l w)) = [].
Proof.
  unfold kpps_check.
  destruct (0 <=? handle); [ | reflexivity ].
  destruct (fetch w) as [pi |]; [ | reflexivity ].
  destruct (newer_edge pi) as [e ts]. reflexivity.
Qed.

Lemma accepted_no_sleep (pt : pps_thread_t) (l : locals)
  (fix_real fix_clock clock_ts : timespec) (log : string)
  (kpps : option (Z * pps_info_t)) :
  filter is_sleep (snd (accepted pt l fix_real fix_clock clock_ts log kpps))
  = [].
Proof.
  unfold accepted, chosen_clock.
  destruct kpps as [[e pi] |]; [ destruct (0 <=? kernelpps_handle pt) | ];
    cbn [clock];
    match goal with
    | |- context [delay_verdict ?d] => destruct (delay_verdict d)
    end;
    cbn [snd]; try reflexivity;
    destruct (report_hook pt); destruct (pps_hook pt); reflexivity.
Qed.

(** The pauses and the counter of a pass are those of [stuck_state]. *)
Lemma pass_follows_stuck (mask : Z) (pt : pps_thread_t) (l : locals)
  (w : wakeup) (clock_ts : timespec) (state : Z) :
  edge_seen w clock_ts state ->
  tv_sec (fixin_real pt) <> 0 ->
  filter is_sleep (events_of (iteration mask pt l w))
  = filter is_sleep (snd (pass_stuck mask pt l clock_ts state))
  /\ unchanged (locals_of (iteration mask pt l w))
     = snd (fst (pass_stuck mask pt l clock_ts state)).
Proof.
  intros (Hw & Hn & Hg) Hfix.
  unfold pass_stuck, pass_cycle, pass_duration, pass_edge, iteration.
  rewrite Hw, Hn, Hg. cbn [negb].
  destruct (Z.eqb_spec (tv_sec (fixin_real pt)) 0); [ contradiction | ].
  pose proof (kpps_check_no_sleep (kernelpps_handle pt) l w) as Hk.
  destruct (kpps_check (kernelpps_handle pt) l w) as [[pk kpps] evk].
  cbn [snd] in Hk.
  match goal with
  | |- context [stuck_state ?a ?b ?c ?d ?e ?f] =>
      destruct (stuck_state a b c d e f) as [[dur un] evs]
  end.
  cbn [fst snd].
  set (ev1 := _ :: evk ++ evs ++ _).
  assert (H1 : filter is_sleep ev1 = filter is_sleep evs).
  { subst ev1.
    match goal with
    | |- filter _ (?e :: ?r) = _ => change (e :: r) with ([e] ++ r)
    end.
    rewrite !filter_app, Hk. cbn. rewrite app_nil_r. reflexivity. }
  destruct (un =? 0); cbn [negb]; [ | auto ].
  match goal with
  | |- context [dedup ?a ?b ?c] => destruct (dedup a b c) as [ok lg]
  end.
  destruct ok.
  - match goal with
    | |- context [accepted ?a ?b ?c ?d ?e ?f ?g] =>
        pose proof (accepted_no_sleep a b c d e f g) as Hs;
        pose proof (accepted_keeps_pulse a b c d e f g) as Ha;
        destruct (accepted a b c d e f g) as [[l2 pt2] ev2]
    end.
    cbn [fst snd unchanged] in Hs, Ha. cbn zeta in Ha.
    destruct Ha as (_ & _ & _ & Hu).
    cbn [locals_of events_of]. rewrite filter_app, H1, Hs, app_nil_r. auto.
  - cbn [locals_of events_of unchanged]. rewrite filter_app, H1. cbn.
    rewrite app_nil_r. auto.
Qed.

(** X10: The thread pauses on the tenth bad wake-up in a row and on no other
    occasion.  A pass sleeps if and only if it has a fix, reads the lines
    as before, measures a cycle outside (999000, 1001000) microseconds and
    finds the counter at 9; the pause is 10 seconds, the counter restarts
    at 1, and such a pass publishes nothing. *)
Theorem pause_on_tenth (mask : Z) (pt : pps_thread_t) (l : locals)
  (w : wakeup) (clock_ts : timespec) (state : Z) (s : Z) :
  edge_seen w clock_ts state ->
  (In (Sleep s) (events_of (iteration mask pt l w))
   <-> s = 10
       /\ tv_sec (fixin_real pt) <> 0
       /\ Z.land state mask = state_last l
       /\ ~ (999000 < pass_cycle mask l clock_ts state < 1001000)
       /\ unchanged l = 9)
  /\ (In (Sleep s) (events_of (iteration mask pt l w)) ->
      unchanged (locals_of (iteration mask pt l w)) = 1
      /\ thread_of (iteration mask pt l w) = pt
      /\ outputs (events_of (iteration mask pt l w)) = []).
Proof.
  intros Hw.
  assert (Hin : In (Sleep s) (events_of (iteration mask pt l w))
                <-> In (Sleep s)
                      (filter is_sleep (events_of (iteration mask pt l w)))).
  { rewrite filter_In. cbn. tauto. }
  destruct (Z.eq_dec (tv_sec (fixin_real pt)) 0) as [E0 | N0].
  { assert (Hev : events_of (iteration mask pt l w)
                  = [Log THREAD_PROG "PPS ioctl(TIOCMIWAIT) on %s succeeded"
                       (devicename pt)]).
    { destruct Hw as (Hw & Hn & Hg). unfold iteration.
      rewrite Hw, Hn, Hg, E0. reflexivity. }
    rewrite Hev. split.
    - split; [ intros [H | []]; discriminate | intros (_ & N & _); tauto ].
    - intros [H | []]; discriminate. }
  destruct (pass_follows_stuck mask pt l w clock_ts state Hw N0)
    as [Hsl Hun].
  rewrite Hin, Hsl, Hun. clear Hin Hsl Hun.
  assert (Hstuck :
            (In (Sleep s)
               (filter is_sleep (snd (pass_stuck mask pt l clock_ts state)))
             <-> s = 10
                 /\ Z.land state mask = state_last l
                 /\ ~ (999000 < pass_cycle mask l clock_ts state < 1001000)
                 /\ unchanged l = 9)
            /\ (In (Sleep s)
                  (filter is_sleep (snd (pass_stuck mask pt l clock_ts state)))
                -> snd (fst (pass_stuck mask pt l clock_ts state)) = 1)).
  { unfold pass_stuck, stuck_state.
    destruct (Z.eqb_spec (Z.land state mask) (state_last l)) as [Es | Ns];
      [ | cbn; split; [ split; [ tauto | intros (_ & E & _); tauto ]
                      | tauto ] ].
    rewrite Z.gtb_ltb.
    destruct (Z.ltb_spec 999000 (pass_cycle mask l clock_ts state));
      destruct (Z.ltb_spec (pass_cycle mask l clock_ts state) 1001000);
      cbn [andb].
    1: { cbn. split; [ split; [ tauto | intros (_ & _ & N & _); lia ]
                     | tauto ]. }
    all: destruct (Z.eqb_spec (unchanged l + 1) 10) as [E10 | N10];
      cbn [fst snd filter is_sleep In];
      [ split;
        [ split;
          [ intros [E | []]; inversion E;
            split; [ reflexivity | split; [ assumption | split; lia ] ]
          | intros (-> & _); left; reflexivity ]
        | intros _; reflexivity ]
      | split;
        [ split; [ intros [] | intros (_ & _ & _ & E9); lia ]
        | intros [] ] ]. }
  destruct Hstuck as [Hiff Hone]. split.
  - rewrite Hiff. tauto.
  - intros Hs. pose proof (Hone Hs) as H1. split; [ exact H1 | ].
    destruct (pass_outputs mask pt l w clock_ts state Hw)
      as [((_ & Hz & _) & _) | (_ & Hpt & _ & Hq)]; [ lia | auto ].
Qed.

Lemma pause_on_tenth_witness :
  edge_seen (seen_at 1001 700000000 64)
    {| tv_sec := 1001; tv_nsec := 700000000 |} 64
  /\ In (Sleep 10)
        (events_of (iteration linux_lines tracking_thread stuck_locals
                      (seen_at 1001 700000000 64))).
Proof.
  assert (Hw : edge_seen (seen_at 1001 700000000 64)
                 {| tv_sec := 1001; tv_nsec := 700000000 |} 64).
  { repeat split; reflexivity. }
  split; [ exact Hw | ].
  apply (proj1 (pause_on_tenth linux_lines tracking_thread stuck_locals
                  (seen_at 1001 700000000 64) _ 64 10 Hw)).
  split; [ reflexivity | ].
  split; [ vm_compute; discriminate | ].
  split; [ reflexivity | ].
  split; [ | reflexivity ].
  intros [_ Hlt]. vm_compute in Hlt. discriminate.
Defined.

(** ** Failing system calls *)

(** A pass leaves the loop exactly when one of its three system calls
    fails. *)
Lemma break_iff_call_fails (mask : Z) (pt : pps_thread_t) (l : locals)
  (w : wakeup) :
  flow_of (iteration mask pt l w) = Break <-> call_fails w.
Proof.
  unfold call_fails, iteration.
  destruct (miwait_ok w); cbn [negb flow_of]; [ | tauto ].
  destruct (now w) as [clock_ts |]; cbn [flow_of]; [ | tauto ].
  destruct (mget w) as [state |]; cbn [flow_of]; [ | tauto ].
  assert (Hnext : forall p : pass, flow_of p = Next ->
             (flow_of p = Break
              <-> true = false \/ Some clock_ts = None \/ Some state = None)).
  { intros p E. rewrite E. split; [ discriminate | ].
    intros [H | [H | H]]; discriminate. }
  destruct (tv_sec (fixin_real pt) =? 0); [ apply Hnext; reflexivity | ].
  destruct (kpps_check (kernelpps_handle pt) l w) as [[pk kpps] evk].
  match goal with
  | |- context [stuck_state ?a ?b ?c ?d ?e ?f] =>
      destruct (stuck_state a b c d e f) as [[dur un] evs]
  end.
  destruct (un =? 0); cbn [negb]; [ | apply Hnext; reflexivity ].
  match goal with
  | |- context [dedup ?a ?b ?c] => destruct (dedup a b c) as [ok lg]
  end.
  destruct ok; [ | apply Hnext; reflexivity ].
  match goal with
  | |- context [accepted ?a ?b ?c ?d ?e ?f ?g] =>
      destruct (accepted a b c d e f g) as [[l2 pt2] ev2]
  end.
  apply Hnext. reflexivity.
Qed.

(** X11: Failure of [ioctl(TIOCMIWAIT)], [clock_gettime] or [ioctl(TIOCMGET)]
    ends the thread, and nothing else does in a pass: a waiting worker
    returns from a wake-up if and only if one of the three calls fails.
    It then leaves the context and its locals as they are, logs the
    failure and goes through the lines after the loop. *)
Theorem failed_call_ends_thread (mask : Z) (m : worker) (w : wakeup) :
  at_pc m = Waiting ->
  (at_pc (fst (act mask m (Wakeup w))) = Returned <-> call_fails w)
  /\ (call_fails w ->
      ctx (fst (act mask m (Wakeup w))) = ctx m
      /\ loc (fst (act mask m (Wakeup w))) = loc m
      /\ exists lvl fmt arg,
           (lvl = THREAD_WARN \/ lvl = THREAD_ERROR)
           /\ snd (act mask m (Wakeup w))
              = Log lvl fmt arg :: teardown (ctx m)).
Proof.
  intros Hpc. cbn [act]. rewrite Hpc. unfold after_pass.
  pose proof (break_iff_call_fails mask (ctx m) (loc m) w) as Hb.
  split.
  - destruct (flow_of (iteration mask (ctx m) (loc m) w)); cbn [fst at_pc].
    + rewrite <- Hb. split; discriminate.
    + rewrite <- Hb. tauto.
  - intros Hf. pose proof (proj2 Hb Hf) as E. rewrite E. cbn [fst snd ctx loc].
    clear Hb E. unfold iteration. destruct Hf as [Hf | Hf].
    + rewrite Hf. cbn. eauto 10.
    + destruct (miwait_ok w); cbn [negb]; [ | cbn; eauto 10 ].
      destruct Hf as [Hf | Hf].
      * rewrite Hf. cbn. eauto 10.
      * destruct (now w); [ | cbn; eauto 10 ].
        rewrite Hf. cbn. eauto 10.
Qed.

Lemma failed_call_ends_thread_witness :
  call_fails lost_lines
  /\ at_pc (fst (act linux_lines (mk_worker tracking_thread tracking_locals
                                    Waiting) (Wakeup lost_lines)))
     = Returned.
Proof.
  assert (Hf : call_fails lost_lines) by (right; right; reflexivity).
  split; [ exact Hf | ].
  apply (proj1 (failed_call_ends_thread linux_lines
                  (mk_worker tracking_thread tracking_locals Waiting)
                  lost_lines eq_refl)).
  exact Hf.
Defined.

(** ** What the loop body never does *)

Lemma kpps_check_kinds (handle : Z) (l : locals) (w : wakeup) :
  forallb is_pass_event (snd (kpps_check handle l w)) = true.
Proof.
  unfold kpps_check.
  destruct (0 <=? handle); [ | reflexivity ].
  destruct (fetch w) as [pi |]; [ | reflexivity ].
  destruct (newer_edge pi) as [e ts]. reflexivity.
Qed.

Lemma stuck_state_kinds (name : string) (st sl cy du un : Z) :
  forallb is_pass_event (snd (stuck_state name st sl cy du un)) = true.
Proof.
  unfold stuck_state.
  destruct (st =? sl); [ | reflexivity ].
  destruct ((999000 <? cy) && (1001000 >? cy)); [ reflexivity | ].
  destruct (un + 1 =? 10); reflexivity.
Qed.

Lemma accepted_kinds (pt : pps_thread_t) (l : locals)
  (fix_real fix_clock clock_ts : timespec) (log : string)
  (kpps : option (Z * pps_info_t)) :
  forallb is_pass_event
    (snd (accepted pt l fix_real fix_clock clock_ts log kpps)) = true.
Proof.
  unfold accepted, chosen_clock.
  destruct kpps as [[e pi] |]; [ destruct (0 <=? kernelpps_handle pt) | ];
    cbn [clock];
    match goal with
    | |- context [delay_verdict ?d] => destruct (delay_verdict d)
    end;
    cbn [snd]; try reflexivity;
    destruct (report_hook pt); destruct (pps_hook pt); reflexivity.
Qed.

Lemma iteration_kinds (mask : Z) (pt : pps_thread_t) (l : locals)
  (w : wakeup) :
  forallb is_pass_event (events_of (iteration mask pt l w)) = true.
Proof.
  unfold iteration.
  destruct (miwait_ok w); cbn [negb]; [ | reflexivity ].
  destruct (now w) as [clock_ts |]; [ | reflexivity ].
  destruct (mget w) as [state |]; [ | reflexivity ].
  destruct (tv_sec (fixin_real pt) =? 0); [ reflexivity | ].
  pose proof (kpps_check_kinds (kernelpps_handle pt) l w) as Hk.
  destruct (kpps_check (kernelpps_handle pt) l w) as [[pk kpps] evk].
  cbn [snd] in Hk.
  match goal with
  | |- context [stuck_state ?a ?b ?c ?d ?e ?f] =>
      pose proof (stuck_state_kinds a b c d e f) as Hs;
      destruct (stuck_state a b c d e f) as [[dur un] evs]
  end.
  cbn [snd] in Hs.
  set (ev1 := _ :: evk ++ evs ++ _).
  assert (H1 : forallb is_pass_event ev1 = true).
  { subst ev1. cbn [forallb is_pass_event andb].
    rewrite !forallb_app, Hk, Hs. reflexivity. }
  destruct (un =? 0); cbn [negb]; [ | exact H1 ].
  match goal with
  | |- context [dedup ?a ?b ?c] => destruct (dedup a b c) as [ok lg]
  end.
  destruct ok.
  - match goal with
    | |- context [accepted ?a ?b ?c ?d ?e ?f ?g] =>
        pose proof (accepted_kinds a b c d e f g) as Ha;
        destruct (accepted a b c d e f g) as [[l2 pt2] ev2]
    end.
    cbn [snd] in Ha. cbn [events_of]. rewrite forallb_app, H1, Ha.
    reflexivity.
  - cbn [events_of]. rewrite forallb_app, H1. reflexivity.
Qed.

(** X12: A pass of the loop body calls the log, report and publish hooks,
    writes the published pair and may pause, and that is all: it never
    calls the wrap hook, never creates, configures or destroys the kernel
    PPS handle, never opens a device and never sets a line discipline. *)
Theorem pass_effects (mask : Z) (pt : pps_thread_t) (l : locals) (w : wakeup) :
  ~ In Wrap (events_of (iteration mask pt l w))
  /\ (forall h, ~ In (PpsDestroy h) (events_of (iteration mask pt l w)))
  /\ (forall fd, ~ In (PpsCreate fd) (events_of (iteration mask pt l w)))
  /\ (forall h, ~ In (PpsSetparams h) (events_of (iteration mask pt l w)))
  /\ (forall path, ~ In (OpenRdwr path) (events_of (iteration mask pt l w)))
  /\ (forall fd, ~ In (SetLdisc fd) (events_of (iteration mask pt l w))).
Proof.
  pose proof (iteration_kinds mask pt l w) as Hk.
  rewrite forallb_forall in Hk.
  split; [ intros Hin; apply Hk in Hin; discriminate | ].
  split; [ intros h Hin; apply Hk in Hin; discriminate | ].
  split; [ intros h Hin; apply Hk in Hin; discriminate | ].
  split; [ intros h Hin; apply Hk in Hin; discriminate | ].
  split; intros h Hin; apply Hk in Hin; discriminate.
Qed.

(** ** Runs of the worker, continued *)

Lemma last_cons_default (x d : timedelta_t) (tds : list timedelta_t) :
  last (x :: tds) d = last tds x.
Proof.
  revert x d. induction tds as [| y tds IH]; intros x d; [ reflexivity | ].
  change (last (x :: y :: tds) d) with (last (y :: tds) d).
  rewrite (IH y d), (IH y x). reflexivity.
Qed.

(** What a step of the system does to the pair and the counter that
    [pps_thread_lastpps] returns. *)
Lemma act_ppsout (mask : Z) (m : worker) (a : action) :
  let r := act mask m a in
  ppsout_last (ctx (fst r))
  = last (publications (snd r)) (ppsout_last (ctx m))
  /\ ppsout_count (ctx (fst r))
     = ppsout_count (ctx m) + Z.of_nat (List.length (publications (snd r))).
Proof.
  cbn zeta. destruct a as [r c | | | w]; cbn [act].
  - cbn. split; [ reflexivity | lia ].
  - cbn. split; [ reflexivity | lia ].
  - destruct (at_pc m); try (cbn; split; [ reflexivity | lia ]).
    destruct (loop_guard (ctx m)); cbn [fst snd ctx].
    + cbn. split; [ reflexivity | lia ].
    + rewrite publications_teardown. cbn. split; [ reflexivity | lia ].
  - destruct (at_pc m); try (cbn; split; [ reflexivity | lia ]).
    rewrite <- publications_outputs, after_pass_outputs.
    rewrite (proj1 (after_pass_state _)).
    destruct (iteration_result mask (ctx m) (loc m) w)
      as [(Hpt & _ & Hq) | (c & _ & _ & _ & _ & _ & Hpt & Ho)].
    + rewrite Hpt, Hq. cbn. split; [ reflexivity | lia ].
    + rewrite Hpt, Ho, publications_publication. cbn.
      split; [ reflexivity | lia ].
Qed.

(** X13: What [pps_thread_lastpps] returns after any run: the pair published
    last in the run, or the pair it held before when the run published
    nothing, and a counter that has grown by exactly the number of pairs
    published; in particular the counter never goes down. *)
Theorem lastpps_after_run (mask : Z) (acts : list action) (m : worker) :
  pps_thread_lastpps (ctx (fst (run mask m acts)))
  = (last (publications (snd (run mask m acts))) (ppsout_last (ctx m)),
     ppsout_count (ctx m)
     + Z.of_nat (List.length (publications (snd (run mask m acts))))).
Proof.
  unfold pps_thread_lastpps. revert m.
  induction acts as [| a rest IH]; intros m.
  - cbn. f_equal. lia.
  - rewrite run_cons. cbn [fst snd]. rewrite IH, publications_app.
    destruct (act_ppsout mask m a) as [Hl Hc]. rewrite Hl, Hc.
    rewrite length_app, Nat2Z.inj_add.
    f_equal; [ | lia ].
    destruct (act_result mask m a) as [[Hp _] | (td & Hp & _)]; rewrite Hp.
    + reflexivity.
    + cbn [app last]. symmetry. apply last_cons_default.
Qed.

Lemma pass_events_no_wrap (evs : list event) :
  forallb is_pass_event evs = true -> filter is_wrap evs = [].
Proof.
  induction evs as [| e evs IH]; [ reflexivity | ].
  cbn [forallb filter]. intros H. apply andb_true_iff in H.
  destruct H as [He Hr]. destruct e; try discriminate; cbn; auto.
Qed.

Lemma teardown_wrap (pt : pps_thread_t) :
  filter is_wrap (teardown pt) = if wrap_hook pt then [Wrap] else [].
Proof.
  unfold teardown.
  destruct (kernelpps_handle pt >? 0); destruct (wrap_hook pt); reflexivity.
Qed.

(** No step changes the hooks, except that [pps_thread_deactivate]
    clears the report and the publish hook. *)
Lemma act_hooks (mask : Z) (m : worker) (a : action) :
  wrap_hook (ctx (fst (act mask m a))) = wrap_hook (ctx m)
  /\ (loop_guard (ctx m) = false ->
      loop_guard (ctx (fst (act mask m a))) = false).
Proof.
  destruct a as [r c | | | w]; cbn [act].
  - cbn. auto.
  - cbn. auto.
  - destruct (at_pc m); cbn [fst ctx]; auto.
    destruct (loop_guard (ctx m)) eqn:Hg; cbn [fst ctx];
      (split; [ reflexivity | ]); [ discriminate | auto ].
  - destruct (at_pc m); cbn [fst ctx]; auto.
    rewrite (proj1 (after_pass_state _)).
    destruct (iteration_result mask (ctx m) (loc m) w)
      as [(Hpt & _) | (c & _ & _ & _ & _ & _ & Hpt & _)];
      rewrite Hpt; cbn; auto.
Qed.

Lemma act_wrap (mask : Z) (m : worker) (a : action) :
  (is_returned (at_pc m) = true ->
   is_returned (at_pc (fst (act mask m a))) = true
   /\ snd (act mask m a) = [])
  /\ (is_returned (at_pc m) = false ->
      filter is_wrap (snd (act mask m a))
      = if wrap_hook (ctx m) && is_returned (at_pc (fst (act mask m a)))
        then [Wrap] else []).
Proof.
  destruct a as [r c | | | w]; cbn [act].
  - cbn [fst snd at_pc filter]. split; [ auto | ].
    intros Hr. rewrite Hr. destruct (wrap_hook (ctx m)); reflexivity.
  - cbn [fst snd at_pc filter]. split; [ auto | ].
    intros Hr. rewrite Hr. destruct (wrap_hook (ctx m)); reflexivity.
  - destruct (at_pc m) eqn:Hpc; cbn [is_returned];
      (split; [ | intros Hr ]); try discriminate.
    + destruct (loop_guard (ctx m)); cbn [fst snd at_pc is_returned filter].
      * destruct (wrap_hook (ctx m)); reflexivity.
      * rewrite teardown_wrap. destruct (wrap_hook (ctx m)); reflexivity.
    + cbn [fst snd filter]. rewrite Hpc.
      destruct (wrap_hook (ctx m)); reflexivity.
    + cbn [fst snd]. rewrite Hpc. auto.
  - destruct (at_pc m) eqn:Hpc; cbn [is_returned];
      (split; [ | intros Hr ]); try discriminate.
    + cbn [fst snd filter]. rewrite Hpc.
      destruct (wrap_hook (ctx m)); reflexivity.
    + pose proof (pass_events_no_wrap _
                    (iteration_kinds mask (ctx m) (loc m) w)) as Hno.
      assert (Hwr : wrap_hook (thread_of (iteration mask (ctx m) (loc m) w))
                    = wrap_hook (ctx m)).
      { destruct (iteration_result mask (ctx m) (loc m) w)
          as [(Hpt & _) | (c & _ & _ & _ & _ & _ & Hpt & _)];
          rewrite Hpt; reflexivity. }
      unfold after_pass.
      destruct (flow_of (iteration mask (ctx m) (loc m) w));
        cbn [fst snd at_pc is_returned].
      * rewrite Hno. destruct (wrap_hook (ctx m)); reflexivity.
      * rewrite filter_app, Hno, teardown_wrap, Hwr.
        destruct (wrap_hook (ctx m)); reflexivity.
    + cbn [fst snd]. rewrite Hpc. auto.
Qed.

Lemma run_returned (mask : Z) (acts : list action) :
  forall m : worker,
    is_returned (at_pc m) = true ->
    is_returned (at_pc (fst (run mask m acts))) = true
    /\ snd (run mask m acts) = [].
Proof.
  induction acts as [| a rest IH]; intros m Hr; [ cbn; auto | ].
  rewrite run_cons. cbn [fst snd].
  destruct (proj1 (act_wrap mask m a) Hr) as [Hr1 He].
  destruct (IH _ Hr1) as [Hr2 He2]. rewrite He, He2. auto.
Qed.

(** X14: The wrap hook runs once, when the thread returns, and never again.
    Over any run, the calls of the wrap hook are: one, if the hook is set
    and the worker returns in the course of the run; none otherwise.  A
    worker that has returned does nothing at all any more. *)
Theorem wrap_hook_runs_once (mask : Z) (acts : list action) (m : worker) :
  filter is_wrap (snd (run mask m acts))
  = (if wrap_hook (ctx m) && negb (is_returned (at_pc m))
        && is_returned (at_pc (fst (run mask m acts)))
     then [Wrap] else [])
  /\ snd (run mask (mk_worker (ctx m) (loc m) Returned) acts) = [].
Proof.
  split; [ | apply run_returned; reflexivity ].
  revert m. induction acts as [| a rest IH]; intros m.
  - cbn. destruct (at_pc m); cbn; rewrite ?andb_false_r; reflexivity.
  - rewrite run_cons. cbn [fst snd]. rewrite filter_app, IH.
    destruct (act_wrap mask m a) as [Hret Hnot].
    rewrite (proj1 (act_hooks mask m a)).
    destruct (is_returned (at_pc m)) eqn:Hr.
    + destruct (Hret eq_refl) as [Hr1 He]. rewrite He, Hr1. cbn.
      rewrite !andb_false_r. reflexivity.
    + rewrite (Hnot eq_refl).
      destruct (is_returned (at_pc (fst (act mask m a)))) eqn:Hr1.
      * destruct (run_returned mask rest _ Hr1) as [Hr2 _]. rewrite Hr2.
        cbn. rewrite !andb_true_r, !andb_false_r.
        destruct (wrap_hook (ctx m)); reflexivity.
      * cbn. rewrite !andb_true_r, !andb_false_r. reflexivity.
Qed.

(** ** After [pps_thread_deactivate] *)

Lemma hook_outputs_of_outputs (evs : list event) :
  filter is_hook_output (outputs evs) = filter is_hook_output evs.
Proof.
  induction evs as [| e evs IH]; [ reflexivity | ].
  destruct e; cbn [outputs filter is_output is_hook_output];
    fold (outputs evs); rewrite ?IH; reflexivity.
Qed.

Lemma teardown_no_hook_output (pt : pps_thread_t) :
  filter is_hook_output (teardown pt) = [].
Proof.
  unfold teardown.
  destruct (kernelpps_handle pt >? 0); destruct (wrap_hook pt); reflexivity.
Qed.

Lemma no_hooks_publication (pt : pps_thread_t) (td : timedelta_t) :
  loop_guard pt = false -> publication_of pt td = [Stored td].
Proof.
  unfold loop_guard, publication_of.
  destruct (report_hook pt); [ discriminate | ].
  intros ->. reflexivity.
Qed.

(** With both hooks cleared, a step calls neither of them and publishes
    at most what the pass the worker is waiting in publishes. *)
Lemma act_without_hooks (mask : Z) (m : worker) (a : action) :
  loop_guard (ctx m) = false ->
  filter is_hook_output (snd (act mask m a)) = []
  /\ (List.length (publications (snd (act mask m a)))
      + passes_left (at_pc (fst (act mask m a)))
      <= passes_left (at_pc m))%nat.
Proof.
  intros Hg. destruct a as [r c | | | w]; cbn [act].
  - cbn. auto.
  - cbn. auto.
  - destruct (at_pc m) eqn:Hpc; cbn [fst snd]; rewrite ?Hpc;
      try (cbn; split; [ reflexivity | lia ]).
    rewrite Hg. cbn [fst snd at_pc passes_left].
    rewrite teardown_no_hook_output, publications_teardown. cbn. auto.
  - destruct (at_pc m) eqn:Hpc; cbn [fst snd]; rewrite ?Hpc;
      try (cbn; split; [ reflexivity | lia ]).
    rewrite <- hook_outputs_of_outputs, <- publications_outputs,
      after_pass_outputs.
    assert (Hpc' : passes_left
                     (at_pc (fst (after_pass
                                    (iteration mask (ctx m) (loc m) w))))
                   = 0%nat).
    { unfold after_pass.
      destruct (flow_of (iteration mask (ctx m) (loc m) w)); reflexivity. }
    rewrite Hpc'.
    destruct (iteration_result mask (ctx m) (loc m) w)
      as [(_ & _ & Hq) | (c & _ & _ & _ & _ & _ & _ & Ho)].
    + rewrite Hq. cbn. auto.
    + rewrite Ho, (no_hooks_publication _ _ Hg). cbn. auto.
Qed.

Lemma run_without_hooks (mask : Z) (acts : list action) :
  forall m : worker,
    loop_guard (ctx m) = false ->
    filter is_hook_output (snd (run mask m acts)) = []
    /\ (List.length (publications (snd (run mask m acts)))
        <= passes_left (at_pc m))%nat
    /\ loop_guard (ctx (fst (run mask m acts))) = false.
Proof.
  induction acts as [| a rest IH]; intros m Hg; [ cbn; auto with arith | ].
  rewrite run_cons. cbn [fst snd].
  destruct (act_without_hooks mask m a Hg) as [Hf Hl].
  pose proof (proj2 (act_hooks mask m a) Hg) as Hg1.
  destruct (IH _ Hg1) as (Hf2 & Hl2 & Hg2).
  rewrite filter_app, Hf, Hf2, publications_app, length_app.
  split; [ reflexivity | ]. split; [ lia | assumption ].
Qed.

(** X15: Once [pps_thread_deactivate] has been called, the report hook and
    the publish hook are never called again, whatever happens next.  The
    worker runs at most the pass it is already waiting in, so at most one
    more pair is stored, and none if the worker was not waiting. *)
Theorem deactivated_thread_winds_down (mask : Z) (m : worker)
  (acts : list action) :
  filter is_hook_output
    (snd (run mask (fst (act mask m Deactivate)) acts)) = []
  /\ (List.length
        (publications (snd (run mask (fst (act mask m Deactivate)) acts)))
      <= passes_left (at_pc m))%nat
  /\ loop_guard (ctx (fst (run mask (fst (act mask m Deactivate)) acts)))
     = false.
Proof.
  apply (run_without_hooks mask acts (fst (act mask m Deactivate))).
  reflexivity.
Qed.

(** The next test of the loop condition after [pps_thread_deactivate]
    ends the thread: a worker at the test returns, having called the wrap
    hook if there is one. *)
Lemma deactivated_guard_returns (mask : Z) (m : worker) :
  at_pc m = AtGuard ->
  act mask (fst (act mask m Deactivate)) Guard
  = (mk_worker (pps_thread_deactivate (ctx m)) (loc m) Returned,
     teardown (pps_thread_deactivate (ctx m))).
Proof.
  intros Hpc. cbn [act fst at_pc ctx loc]. rewrite Hpc. reflexivity.
Qed.

(** ** Kernel PPS setup, continued *)

Lemma find_pps_miss (name : string) (g : list (string * string)) :
  Forall (fun entry => ~ names_device name entry) g ->
  find_pps name g = (Ascii.zero, map checking g).
Proof.
  induction 1 as [| [pathv bytes] rest Hno _ IH]; [ reflexivity | ].
  cbn [find_pps map]. unfold names_device in Hno. cbn [snd] in Hno.
  destruct (String.eqb_spec (drop_last bytes) name); [ contradiction | ].
  rewrite IH. reflexivity.
Qed.

Lemma find_pps_hit (name : string) (pre post : list (string * string))
  (pathv bytes : string) :
  Forall (fun entry => ~ names_device name entry) pre ->
  names_device name (pathv, bytes) ->
  find_pps name (pre ++ (pathv, bytes) :: post)
  = (char28 pathv, map checking pre ++ [checking (pathv, bytes)]).
Proof.
  intros Hpre Hhit.
  induction Hpre as [| [pv bs] rest Hno _ IH]; cbn [app find_pps map].
  - unfold names_device in Hhit. cbn [snd] in Hhit.
    destruct (String.eqb_spec (drop_last bytes) name); [ | contradiction ].
    reflexivity.
  - unfold names_device in Hno. cbn [snd] in Hno.
    destruct (String.eqb_spec (drop_last bs) name); [ contradiction | ].
    rewrite IH. reflexivity.
Qed.

(** X16: The search of lines 202-233 fails closed.  On Linux, for a tty
    whose name does not begin with /dev/pps and once the line discipline
    is set: if no sysfs entry has the device name as its content, the
    function checks every entry, reports "KPPS device not found", returns
    -1 with [kernelpps_handle] at -1 and opens nothing. *)
Theorem pps_device_not_found (os : kpps_os) (pt : pps_thread_t) :
  linux os = true ->
  os_isatty os = true ->
  String.prefix "/dev/pps" (devicename pt) = false ->
  os_setd os = true ->
  Forall (fun entry => ~ names_device (devicename pt) entry) (os_glob os) ->
  init_kernel_pps os pt
  = (-1, set_kernelpps_handle pt (-1),
     SetLdisc (devicefd pt) :: map checking (os_glob os)
       ++ [Log THREAD_INF "KPPS device not found." no_arg]).
Proof.
  intros Hl Ht Hp Hs Hg.
  unfold init_kernel_pps, kpps_descriptor, linux_pps_path.
  rewrite Hl, Ht. cbn [negb devicename set_kernelpps_handle devicefd].
  rewrite Hp, Hs. cbn [negb].
  rewrite (find_pps_miss _ _ Hg). reflexivity.
Qed.

Lemma pps_device_not_found_witness :
  Forall (fun entry => ~ names_device "/dev/ttyUSB0" entry)
    (os_glob os_two_pps)
  /\ init_kernel_pps os_two_pps (fresh_thread "/dev/ttyUSB0")
     = (-1, set_kernelpps_handle (fresh_thread "/dev/ttyUSB0") (-1),
        SetLdisc 5 :: map checking (os_glob os_two_pps)
          ++ [Log THREAD_INF "KPPS device not found." no_arg]).
Proof.
  assert (Hg : Forall (fun entry => ~ names_device "/dev/ttyUSB0" entry)
                 (os_glob os_two_pps)).
  { repeat constructor; unfold names_device; vm_compute; discriminate. }
  split; [ exact Hg | ].
  apply (pps_device_not_found os_two_pps (fresh_thread "/dev/ttyUSB0"));
    try reflexivity.
  exact Hg.
Defined.

(** X17: The first match decides.  On Linux, as root, for a tty whose name
    does not begin with /dev/pps and once the line discipline is set: if
    the sysfs entries before a given one do not name the device and that
    one does, the device opened is /dev/pps followed by character 28 of
    that entry's path (the digit of ppsN), and the entries after it are
    not looked at. *)
Theorem pps_device_first_match (os : kpps_os) (pt : pps_thread_t)
  (pre post : list (string * string)) (pathv bytes : string) :
  linux os = true ->
  os_isatty os = true ->
  String.prefix "/dev/pps" (devicename pt) = false ->
  os_setd os = true ->
  os_uid os = 0 ->
  os_glob os = pre ++ (pathv, bytes) :: post ->
  Forall (fun entry => ~ names_device (devicename pt) entry) pre ->
  names_device (devicename pt) (pathv, bytes) ->
  char28 pathv <> Ascii.zero ->
  exists rest,
    snd (init_kernel_pps os pt)
    = SetLdisc (devicefd pt)
        :: map checking pre
        ++ checking (pathv, bytes)
        :: OpenRdwr ("/dev/pps" ++ String (char28 pathv) EmptyString)%string
        :: rest.
Proof.
  intros Hl Ht Hp Hs Hu Hg Hpre Hhit Hc.
  unfold init_kernel_pps, kpps_descriptor, linux_pps_path.
  rewrite Hl, Ht. cbn [negb devicename set_kernelpps_handle devicefd].
  rewrite Hp, Hs, Hg. cbn [negb].
  rewrite (find_pps_hit _ _ _ _ _ Hpre Hhit).
  destruct (Ascii.eqb_spec (char28 pathv) Ascii.zero); [ contradiction | ].
  rewrite Hu. cbn [Z.eqb negb].
  set (path := ("/dev/pps" ++ String (char28 pathv) EmptyString)%string).
  destruct (0 >? os_open os path).
  - eexists. cbn [snd]. cbn [app]. rewrite <- !app_assoc. cbn [app].
    reflexivity.
  - destruct (os_create os (os_open os path)).
    + destruct (negb (os_setparams os)); eexists; cbn [snd app];
        rewrite <- !app_assoc; cbn [app]; reflexivity.
    + eexists. cbn [snd app]. rewrite <- !app_assoc. cbn [app].
      reflexivity.
Qed.

Lemma pps_device_first_match_witness :
  names_device "/dev/ttyS0"
    ("/sys/devices/virtual/pps/pps1/path", sysfs_line "/dev/ttyS0")
  /\ exists rest,
       snd (init_kernel_pps os_two_pps (fresh_thread "/dev/ttyS0"))
       = SetLdisc 5
           :: map checking [("/sys/devices/virtual/pps/pps0/path",
                             sysfs_line "/dev/ttyS1")]
           ++ checking ("/sys/devices/virtual/pps/pps1/path",
                        sysfs_line "/dev/ttyS0")
           :: OpenRdwr "/dev/pps1" :: rest.
Proof.
  assert (Hhit : names_device "/dev/ttyS0"
                   ("/sys/devices/virtual/pps/pps1/path",
                    sysfs_line "/dev/ttyS0")) by reflexivity.
  split; [ exact Hhit | ].
  apply (pps_device_first_match os_two_pps (fresh_thread "/dev/ttyS0")
           [("/sys/devices/virtual/pps/pps0/path", sysfs_line "/dev/ttyS1")]
           [] "/sys/devices/virtual/pps/pps1/path" (sysfs_line "/dev/ttyS0"));
    try reflexivity.
  - repeat constructor. unfold names_device. vm_compute. discriminate.
  - vm_compute. discriminate.
Defined.

(** X18: An explicit PPS device is taken as it is (lines 171-172).  On
    Linux, as root, for a tty whose name begins with /dev/pps, the first
    thing the function does is open that very name: no line discipline
    is set, sysfs is not searched.  If the open fails the function gives
    up with -1, [kernelpps_handle] stays at -1 and [time_pps_create] is
    not called. *)
Theorem explicit_pps_device (os : kpps_os) (pt : pps_thread_t) :
  linux os = true ->
  os_isatty os = true ->
  String.prefix "/dev/pps" (devicename pt) = true ->
  os_uid os = 0 ->
  (exists rest, snd (init_kernel_pps os pt) = OpenRdwr (devicename pt) :: rest)
  /\ (forall fd, ~ In (SetLdisc fd) (snd (init_kernel_pps os pt)))
  /\ (os_open os (devicename pt) < 0 ->
      init_kernel_pps os pt
      = (-1, set_kernelpps_handle pt (-1),
         [OpenRdwr (devicename pt);
          Log THREAD_INF "KPPS cannot open %s: %s" (devicename pt)])).
Proof.
  intros Hl Ht Hp Hu.
  unfold init_kernel_pps, kpps_descriptor, linux_pps_path.
  rewrite Hl, Ht. cbn [negb devicename set_kernelpps_handle].
  rewrite Hp, Hu. cbn [Z.eqb negb app]. rewrite Z.gtb_ltb.
  destruct (Z.ltb_spec (os_open os (devicename pt)) 0) as [Hneg | Hok].
  - split; [ eexists; reflexivity | ].
    split; [ | reflexivity ].
    intros fd Hin. cbn in Hin. intuition discriminate.
  - split; [ | split; [ | lia ] ].
    + destruct (os_create os (os_open os (devicename pt)));
        [ destruct (os_setparams os); cbn [negb] | ];
        eexists; reflexivity.
    + intros fd.
      destruct (os_create os (os_open os (devicename pt)));
        [ destruct (os_setparams os); destruct (os_getcap os); cbn [negb] | ];
        intros Hin; cbn in Hin; intuition discriminate.
Qed.

Lemma explicit_pps_device_witness :
  String.prefix "/dev/pps" (devicename (fresh_thread "/dev/pps0")) = true
  /\ exists rest,
       snd (init_kernel_pps os_two_pps (fresh_thread "/dev/pps0"))
       = OpenRdwr "/dev/pps0" :: rest.
Proof.
  split; [ reflexivity | ].
  apply (proj1 (explicit_pps_device os_two_pps (fresh_thread "/dev/pps0")
                  eq_refl eq_refl eq_refl eq_refl)).
Defined.

Lemma find_pps_lookup (name : string) (g : list (string * string)) :
  forallb is_lookup_event (snd (find_pps name g)) = true.
Proof.
  induction g as [| [pathv bytes] rest IH]; [ reflexivity | ].
  cbn [find_pps]. destruct (String.eqb (drop_last bytes) name);
    [ reflexivity | ].
  destruct (find_pps name rest) as [c evs]. cbn [snd] in *.
  cbn [forallb is_lookup_event andb]. exact IH.
Qed.

(** Until it has its descriptor, the function logs, sets the line
    discipline and opens, and does nothing else. *)
Lemma kpps_descriptor_lookup (os : kpps_os) (pt : pps_thread_t) :
  forallb is_lookup_event (fst (kpps_descriptor os pt)) = true.
Proof.
  unfold kpps_descriptor.
  destruct (linux os); [ | reflexivity ].
  assert (Hp : forallb is_lookup_event (fst (linux_pps_path os pt)) = true).
  { unfold linux_pps_path.
    destruct (String.prefix "/dev/pps" (devicename pt)); [ reflexivity | ].
    destruct (os_setd os); cbn [negb]; [ | reflexivity ].
    pose proof (find_pps_lookup (devicename pt) (os_glob os)) as Hf.
    destruct (find_pps (devicename pt) (os_glob os)) as [c evs].
    cbn [snd] in Hf.
    destruct (Ascii.eqb c Ascii.zero); cbn [fst forallb is_lookup_event andb];
      rewrite ?forallb_app, Hf; reflexivity. }
  destruct (linux_pps_path os pt) as [evs [path |]]; cbn [fst] in *;
    [ | exact Hp ].
  destruct (negb (0 =? os_uid os)); cbn [fst];
    [ rewrite forallb_app, Hp; reflexivity | ].
  destruct (0 >? os_open os path); cbn [fst];
    rewrite forallb_app, Hp; reflexivity.
Qed.

Lemma lookup_no_handle_call (evs : list event) (e : event) :
  forallb is_lookup_event evs = true ->
  In e evs ->
  (forall fd, e <> PpsCreate fd) /\ (forall h, e <> PpsDestroy h).
Proof.
  intros Hall Hin. rewrite forallb_forall in Hall. apply Hall in Hin.
  split; intros x ->; discriminate.
Qed.

(** X19: What [init_kernel_pps] leaves behind.  It touches nothing in the
    context but [kernelpps_handle]; it returns 0 or -1; when it returns 0,
    [time_pps_create] succeeded on the descriptor it was called on and
    gave the handle that is now in the context, [time_pps_setparams]
    succeeded, and nothing was destroyed; a handle other than -1 in the
    context always comes from a successful [time_pps_create]; and a
    handle is destroyed only after [time_pps_setparams] failed, the
    function then returning -1 with that handle still in the context. *)
Theorem init_kernel_pps_outcome (os : kpps_os) (pt : pps_thread_t) :
  set_kernelpps_handle pt
    (kernelpps_handle (snd (fst (init_kernel_pps os pt))))
  = snd (fst (init_kernel_pps os pt))
  /\ (fst (fst (init_kernel_pps os pt)) = 0
      \/ fst (fst (init_kernel_pps os pt)) = -1)
  /\ (fst (fst (init_kernel_pps os pt)) = 0 ->
      os_setparams os = true
      /\ (forall h, ~ In (PpsDestroy h) (snd (init_kernel_pps os pt)))
      /\ exists fd,
           In (PpsCreate fd) (snd (init_kernel_pps os pt))
           /\ os_create os fd
              = Some (kernelpps_handle (snd (fst (init_kernel_pps os pt)))))
  /\ (kernelpps_handle (snd (fst (init_kernel_pps os pt))) <> -1 ->
      exists fd,
        In (PpsCreate fd) (snd (init_kernel_pps os pt))
        /\ os_create os fd
           = Some (kernelpps_handle (snd (fst (init_kernel_pps os pt)))))
  /\ (forall h,
        In (PpsDestroy h) (snd (init_kernel_pps os pt)) ->
        fst (fst (init_kernel_pps os pt)) = -1
        /\ h = kernelpps_handle (snd (fst (init_kernel_pps os pt)))
        /\ os_setparams os = false).
Proof.
  unfold init_kernel_pps.
  destruct (os_isatty os); cbn [negb].
  2: { cbn [fst snd]. split; [ reflexivity | ]. split; [ auto | ].
       split; [ discriminate | ].
       split; [ cbn; intros N; now elim N | ].
       intros h [Hin | []]. discriminate. }
  pose proof (kpps_descriptor_lookup os (set_kernelpps_handle pt (-1)))
    as Hlk.
  destruct (kpps_descriptor os (set_kernelpps_handle pt (-1)))
    as [evs [ret |]]; cbn [fst] in Hlk.
  2: { cbn [fst snd]. split; [ reflexivity | ]. split; [ auto | ].
       split; [ discriminate | ].
       split; [ cbn; intros N; now elim N | ].
       intros h Hin.
       destruct (lookup_no_handle_call _ _ Hlk Hin) as [_ N].
       now elim (N h). }
  assert (Hnd : forall h tl,
             (forall h', ~ In (PpsDestroy h') tl) ->
             ~ In (PpsDestroy h)
                 ((evs ++ [Log THREAD_INF "KPPS RFC2783 fd is %d" no_arg;
                           PpsCreate ret]) ++ tl)).
  { intros h tl Htl Hin. apply in_app_or in Hin.
    destruct Hin as [Hin | Hin]; [ | exact (Htl h Hin) ].
    apply in_app_or in Hin. destruct Hin as [Hin | Hin].
    - destruct (lookup_no_handle_call _ _ Hlk Hin) as [_ N]. now elim (N h).
    - cbn in Hin. intuition discriminate. }
  assert (Hcr : forall tl,
             In (PpsCreate ret)
                ((evs ++ [Log THREAD_INF "KPPS RFC2783 fd is %d" no_arg;
                          PpsCreate ret]) ++ tl)).
  { intros tl. apply in_or_app. left. apply in_or_app. right.
    right. left. reflexivity. }
  destruct (os_create os ret) as [h |] eqn:Hc.
  2: { cbn [fst snd]. split; [ reflexivity | ]. split; [ auto | ].
       split; [ discriminate | ].
       split; [ cbn; intros N; now elim N | ].
       intros h Hin. exfalso. revert Hin. apply Hnd.
       intros h' Hin'. cbn in Hin'. intuition discriminate. }
  destruct (os_setparams os); cbn [negb fst snd].
  - split; [ reflexivity | ]. split; [ auto | ].
    split; [ intros _ | split ].
    + split; [ reflexivity | ]. split.
      * intros h'. apply Hnd. intros h'' Hin.
        destruct (os_getcap os); cbn in Hin; intuition discriminate.
      * exists ret. split; [ apply Hcr | assumption ].
    + intros _. exists ret. split; [ apply Hcr | assumption ].
    + intros h' Hin. exfalso. revert Hin. apply Hnd. intros h'' Hin.
      destruct (os_getcap os); cbn in Hin; intuition discriminate.
  - split; [ reflexivity | ]. split; [ auto | ].
    split; [ discriminate | split ].
    + intros _. exists ret. split; [ | assumption ].
      rewrite <- app_assoc. apply Hcr.
    + intros h' Hin. split; [ reflexivity | ].
      split; [ | reflexivity ].
      apply in_app_or in Hin. destruct Hin as [Hin | Hin].
      * exfalso. revert Hin. apply Hnd. intros h'' Hin.
        destruct (os_getcap os); cbn in Hin; intuition discriminate.
      * cbn in Hin. destruct Hin as [Hin | [Hin | []]];
          [ discriminate | inversion Hin; reflexivity ].
Qed.

Lemma init_kernel_pps_outcome_witness :
  In (PpsDestroy 7)
     (snd (init_kernel_pps os_no_setparams (fresh_thread "/dev/ttyS0")))
  /\ fst (fst (init_kernel_pps os_no_setparams (fresh_thread "/dev/ttyS0")))
     = -1
  /\ 7 = kernelpps_handle
           (snd (fst (init_kernel_pps os_no_setparams
                        (fresh_thread "/dev/ttyS0"))))
  /\ os_setparams os_no_setparams = false.
Proof.
  assert (Hin : In (PpsDestroy 7)
                  (snd (init_kernel_pps os_no_setparams
                          (fresh_thread "/dev/ttyS0")))).
  { vm_compute. do 9 right. left. reflexivity. }
  split; [ exact Hin | ].
  exact (proj2 (proj2 (proj2 (proj2
           (init_kernel_pps_outcome os_no_setparams
              (fresh_thread "/dev/ttyS0"))))) 7 Hin).
Defined.

(** ** From the stashed fix to the published pair *)

Lemma stored_not_in_teardown (pt : pps_thread_t) (td : timedelta_t) :
  ~ In (Stored td) (teardown pt).
Proof.
  intros Hin. apply stored_is_output in Hin.
  rewrite outputs_teardown in Hin. destruct Hin.
Qed.

(** X20: The fix handed to [pps_thread_stash_fixtime] is the one the next
    wake-up works with.  If the worker is waiting when the fix
    [(realtime, clocktime)] is stashed and the following wake-up stores a
    pair, then that pair's [real] is the top of the second after
    [realtime], the second of [realtime] is not zero and lies beyond
    [last_second_used], and the delay that [delay_verdict] let through is
    the pair's [clock] minus [clocktime]. *)
Theorem stashed_fix_is_used (mask : Z) (m : worker)
  (realtime clocktime : timespec) (w : wakeup) (td : timedelta_t) :
  at_pc m = Waiting ->
  In (Stored td)
     (snd (act mask (fst (act mask m (Stash realtime clocktime)))
             (Wakeup w))) ->
  real td = {| tv_sec := tv_sec realtime + 1; tv_nsec := 0 |}
  /\ tv_sec realtime <> 0
  /\ last_second_used (loc m) < tv_sec realtime
  /\ delay_verdict (TS_SUB (clock td) clocktime) = None.
Proof.
  intros Hpc Hin. cbn [act fst at_pc ctx loc] in Hin. rewrite Hpc in Hin.
  set (pt := pps_thread_stash_fixtime (ctx m) realtime clocktime) in *.
  assert (Hin' : In (Stored td) (events_of (iteration mask pt (loc m) w))).
  { unfold after_pass in Hin.
    destruct (flow_of (iteration mask pt (loc m) w)); cbn [snd] in Hin;
      [ exact Hin | ].
    apply in_app_or in Hin. destruct Hin as [Hin | Hin]; [ exact Hin | ].
    elim (stored_not_in_teardown _ _ Hin). }
  destruct (stored_edge_seen mask pt (loc m) w td Hin')
    as (clock_ts & state & Hw).
  apply stored_is_output in Hin'.
  destruct (pass_outputs mask pt (loc m) w clock_ts state Hw)
    as [(Hgo & _ & _ & _ & Ho) | (_ & _ & _ & Hq)];
    [ | rewrite Hq in Hin'; destruct Hin' ].
  rewrite Ho in Hin'. apply stored_in_publication in Hin'. subst td.
  destruct Hgo as (Hfix & _ & _ & Hnew & Hd).
  cbn [real clock]. subst pt. cbn in Hfix, Hnew, Hd |- *. auto.
Qed.

Lemma stashed_fix_is_used_witness :
  In (Stored {| real := {| tv_sec := 1700000001; tv_nsec := 0 |};
                clock := {| tv_sec := 1000; tv_nsec := 500000000 |} |})
     (snd (act linux_lines
             (fst (act linux_lines
                     (mk_worker (fresh_thread "/dev/ttyS0") tracking_locals
                        Waiting)
                     (Stash {| tv_sec := 1700000000; tv_nsec := 0 |}
                            {| tv_sec := 1000; tv_nsec := 0 |})))
             (Wakeup (seen_at 1000 500000000 64))))
  /\ delay_verdict
       (TS_SUB {| tv_sec := 1000; tv_nsec := 500000000 |}
               {| tv_sec := 1000; tv_nsec := 0 |}) = None.
Proof.
  assert (Hin : In (Stored {| real := {| tv_sec := 1700000001; tv_nsec := 0 |};
                             clock := {| tv_sec := 1000;
                                         tv_nsec := 500000000 |} |})
                  (snd (act linux_lines
                          (fst (act linux_lines
                                  (mk_worker (fresh_thread "/dev/ttyS0")
                                     tracking_locals Waiting)
                                  (Stash {| tv_sec := 1700000000;
                                            tv_nsec := 0 |}
                                         {| tv_sec := 1000; tv_nsec := 0 |})))
                          (Wakeup (seen_at 1000 500000000 64))))).
  { vm_compute. do 6 right. left. reflexivity. }
  split; [ exact Hin | ].
  exact (proj2 (proj2 (proj2
           (stashed_fix_is_used linux_lines
              (mk_worker (fresh_thread "/dev/ttyS0") tracking_locals Waiting)
              _ _ (seen_at 1000 500000000 64) _ eq_refl Hin)))).
Defined.
